(** * ibp: the view/dispatch layer ([ibp/views.py]) and the marshmallow
      schemas ([ibp/schemas.py]) as a shallow embedding.

    The handlers are modelled as functions over an explicit world (the
    relational store, the flask session and the flashed messages).  The
    interpreter is Python 3: [map] yields a one-shot iterator, [//] is floor
    division, [str.format] ignores surplus arguments.  Text is modelled as
    ASCII strings. *)

From Stdlib Require Import ZArith Lia Ascii String.
From stdpp Require Import gmap strings list fin_maps sorting.

Open Scope string_scope.

(** ** Text and number helpers *)

Module Py.

(** The regex class [\d], on ASCII text. *)
Definition is_digit (c : ascii) : bool :=
  (48 <=? nat_of_ascii c)%nat && (nat_of_ascii c <=? 57)%nat.

Definition digit_value (c : ascii) : nat := nat_of_ascii c - 48.

Definition digit_char (n : nat) : ascii := ascii_of_nat (48 + n mod 10).

(** A character class [[lo-hi]] of digits. *)
Definition digit_between (lo hi : nat) (c : ascii) : bool :=
  is_digit c && (lo <=? digit_value c)%nat && (digit_value c <=? hi)%nat.

Fixpoint digits_go (fuel n : nat) (acc : string) : string :=
  match fuel with
  | O => acc
  | S fuel' =>
      let acc' := String (digit_char n) acc in
      if (n / 10 =? 0)%nat then acc' else digits_go fuel' (n / 10) acc'
  end.

(** [str(n)] for a non-negative integer. *)
Definition str (n : nat) : string := digits_go (S n) n "".

Fixpoint zeros (k : nat) : string :=
  match k with O => "" | S k' => String "0" (zeros k') end.

(** ['%0<w>d' % n] for a non-negative integer: left-padded with zeros to
    width [w], never truncated. *)
Definition zfill (w n : nat) : string :=
  let s := str n in zeros (w - String.length s) ++ s.

(** Truthiness of a string: empty is falsy. *)
Definition truthy (s : string) : bool :=
  match s with EmptyString => false | _ => true end.

(** [a or b] on strings. *)
Definition or_else (a b : string) : string := if truthy a then a else b.

End Py.

(** ** Calendar dates *)

Record date := Date { year : nat; month : nat; day : nat }.

Global Instance date_eq_dec : EqDecision date.
Proof. solve_decision. Defined.

Definition is_leap (y : nat) : bool :=
  (y mod 4 =? 0)%nat && (negb (y mod 100 =? 0)%nat || (y mod 400 =? 0)%nat).

Definition days_in_month (y m : nat) : nat :=
  match m with
  | 2 => if is_leap y then 29 else 28
  | 4 | 6 | 9 | 11 => 30
  | _ => 31
  end.

(** [datetime.date(y, m, d)]: [None] stands for the [ValueError] raised
    outside MINYEAR..MAXYEAR, 1..12 and 1..days-in-month. *)
Definition make_date (y m d : nat) : option date :=
  if (1 <=? y)%nat && (y <? 10 * 1000)%nat && (1 <=? m)%nat && (m <=? 12)%nat
     && (1 <=? d)%nat && (d <=? days_in_month y m)%nat
  then Some (Date y m d) else None.

(** *** [datetime.strptime(s, '%Y-%m-%d').date()]

    The format compiles to the regex
    [(?P<Y>\d\d\d\d)-(?P<m>1[0-2]|0[1-9]|[1-9])-(?P<d>3[0-1]|[1-2]\d|0[1-9]|[1-9]| [1-9])];
    the match is anchored at the start, alternatives are tried in order,
    and text left after the match is an error. *)

Module Strptime.
Import Py.

(** Each matcher returns the ways its group can match a prefix, in the
    order the regex engine tries them, with the text that is left. *)
Definition match_Y (s : string) : list (nat * string) :=
  match s with
  | String a (String b (String c (String d rest))) =>
      if is_digit a && is_digit b && is_digit c && is_digit d
      then [(1000 * digit_value a + 100 * digit_value b
             + 10 * digit_value c + digit_value d, rest)]
      else []
  | _ => []
  end.

Definition match_m (s : string) : list (nat * string) :=
  match s with
  | String a s1 =>
      match s1 with
      | String b s2 =>
          (if Ascii.eqb a "1" && digit_between 0 2 b
           then [(10 + digit_value b, s2)] else [])
          ++ (if Ascii.eqb a "0" && digit_between 1 9 b
              then [(digit_value b, s2)] else [])
      | EmptyString => []
      end
      ++ (if digit_between 1 9 a then [(digit_value a, s1)] else [])
  | EmptyString => []
  end.

Definition match_d (s : string) : list (nat * string) :=
  match s with
  | String a s1 =>
      match s1 with
      | String b s2 =>
          (if Ascii.eqb a "3" && digit_between 0 1 b
           then [(30 + digit_value b, s2)] else [])
          ++ (if digit_between 1 2 a && is_digit b
              then [(10 * digit_value a + digit_value b, s2)] else [])
          ++ (if Ascii.eqb a "0" && digit_between 1 9 b
              then [(digit_value b, s2)] else [])
      | EmptyString => []
      end
      ++ (if digit_between 1 9 a then [(digit_value a, s1)] else [])
      ++ match s1 with
         | String b s2 =>
             if Ascii.eqb a " " && digit_between 1 9 b
             then [(digit_value b, s2)] else []
         | EmptyString => []
         end
  | EmptyString => []
  end.

Definition match_dash (s : string) : list string :=
  match s with
  | String c rest => if Ascii.eqb c "-" then [rest] else []
  | EmptyString => []
  end.

(** All matches of the whole pattern, in backtracking order. *)
Definition matches (s : string) : list (nat * nat * nat * string) :=
  '(y, s1) ← match_Y s;
  s2 ← match_dash s1;
  '(m, s3) ← match_m s2;
  s4 ← match_dash s3;
  '(d, s5) ← match_d s4;
  [(y, m, d, s5)].

(** [None] stands for the [ValueError]: no match, unconverted data, or a
    date that does not exist. *)
Definition strptime (s : string) : option date :=
  match matches s with
  | [] => None
  | (y, m, d, rest) :: _ =>
      match rest with
      | EmptyString => make_date y m d
      | _ => None
      end
  end.

End Strptime.

(** [d.strftime("%Y-%m-%d")]; also the text a date is stored as. *)
Definition strftime_Ymd (d : date) : string :=
  Py.zfill 4 (year d) ++ "-" ++ Py.zfill 2 (month d) ++ "-" ++ Py.zfill 2 (day d).

(** ** The persisted entities

    Rows are keyed by their [autoid]; relationships are foreign keys, so
    two requests of one inmate see the same inmate row. *)

Definition timestamp := Z.

(** Modelled from the spec: the entity classes of [ibp/models.py], which is
    not among the sources.  Each record keeps the attributes of the spec's
    data model that the handlers read or write. *)
Record Unit := {
  unit_name : string;
  unit_street1 : string;
  unit_street2 : string;
  unit_city : string;
  unit_state : string;
  unit_zipcode : string;
  unit_shipping_method : string;
}.

(** Modelled from the spec: [ibp.models.Inmate]; (jurisdiction, id) is its
    natural key, the unit reference is nullable. *)
Record Inmate := {
  inmate_jurisdiction : string;
  inmate_id : nat;
  inmate_first_name : string;
  inmate_last_name : string;
  inmate_unit : option nat;          (* nullable reference to a Unit *)
  inmate_lookups : list timestamp;   (* the stored Lookup rows of the inmate *)
}.

(** Modelled from the spec: [ibp.models.Request], owned by one inmate and
    later attached to at most one shipment.  The action is held as the text
    the handlers pass and the queries compare; the model knows the two
    actions "Tossed" and "Filled". *)
Record Request := {
  request_action : string;
  request_date_postmarked : date;
  request_date_processed : date;
  request_inmate : option nat;       (* nullable reference to an Inmate *)
  request_shipment : option nat;     (* nullable reference to a Shipment *)
}.

(** Modelled from the spec: [ibp.models.Shipment]; its requests are the
    request rows that reference it. *)
Record Shipment := {
  shipment_date_shipped : date;
  shipment_unit : nat;
  shipment_weight : Z;               (* ounces *)
  shipment_postage : Z;              (* US cents *)
  shipment_tracking_code : string;
}.

Record Store := {
  units : gmap nat Unit;
  inmates : gmap nat Inmate;
  requests : gmap nat Request;
  shipments : gmap nat Shipment;
}.

(** The primary key the store hands to a new row. *)
Definition new_autoid {A} (table : gmap nat A) : nat :=
  S (max_list (elements (dom table))).

(** [request.inmate] and [inmate.unit]: the referenced row, [None] for a
    null reference. *)
Definition inmate_of (s : Store) (r : Request) : option (nat * Inmate) :=
  k ← request_inmate r; i ← inmates s !! k; Some (k, i).

Definition unit_of (s : Store) (i : Inmate) : option (nat * Unit) :=
  k ← inmate_unit i; u ← units s !! k; Some (k, u).

(** [shipment.requests]: the requests attached to a shipment. *)
Definition requests_of_shipment (s : Store) (sid : nat) : gset nat :=
  dom (filter (λ kr, request_shipment kr.2 = Some sid) (requests s)).

(** ** Responses *)

Inductive Arg :=
| AForm
| AInmate (autoid : nat) (i : Inmate)
| AInmates (l : list (nat * Inmate))
| ARequest (autoid : nat) (r : Request)
| ADate (d : date)
| AText (s : option string).

Inductive Json :=
| JStr (s : string)
| JInt (n : Z)
| JStrs (l : list string)
| JInts (l : list Z)
| JHtml (template : string) (context : list (string * Arg)).

Inductive Body :=
| Text (s : string)
| Html (template : string) (context : list (string * Arg))
| Jsonify (fields : list (string * Json))
| Location (endpoint : string) (autoid : nat).

(** What a handler produces: a response with its status code, or an
    exception that nothing in the handler catches. *)
Inductive Outcome :=
| Respond (status : nat) (body : Body)
| Uncaught (exn : string).

Definition render_template (t : string) (ctx : list (string * Arg)) : Outcome :=
  Respond 200 (Html t ctx).
Definition redirect (endpoint : string) (autoid : nat) : Outcome :=
  Respond 302 (Location endpoint autoid).
Definition jsonify (fields : list (string * Json)) : Outcome :=
  Respond 200 (Jsonify fields).
(** [first_or_404] on an empty query. *)
Definition not_found : Outcome := Respond 404 (Text "Not Found").

Definition status_of (o : Outcome) : option nat :=
  match o with Respond c _ => Some c | Uncaught _ => None end.

Definition is_redirect (o : Outcome) : bool :=
  match o with Respond _ (Location _ _) => true | _ => false end.

(** ** The world a handler runs in *)

Record World := {
  db : Store;
  flask_session : gmap string string;
  flashed : list (string * string);    (* (message, category), oldest first *)
}.

Definition set_db (s : Store) (w : World) : World :=
  {| db := s; flask_session := flask_session w; flashed := flashed w |}.

Definition flash (msg category : string) (w : World) : World :=
  {| db := db w; flask_session := flask_session w;
     flashed := flashed w ++ [(msg, category)] |}.

Definition session_set (k v : string) (w : World) : World :=
  {| db := db w; flask_session := <[k := v]> (flask_session w);
     flashed := flashed w |}.

Definition set_inmates (m : gmap nat Inmate) (s : Store) : Store :=
  {| units := units s; inmates := m; requests := requests s;
     shipments := shipments s |}.

Definition set_requests (m : gmap nat Request) (s : Store) : Store :=
  {| units := units s; inmates := inmates s; requests := m;
     shipments := shipments s |}.

Definition set_shipments (m : gmap nat Shipment) (s : Store) : Store :=
  {| units := units s; inmates := inmates s; requests := requests s;
     shipments := m |}.

(** ** [search_inmates] *)

Inductive Method := GET | POST.

Record InmateSearchForm := {
  form_first_name : string;
  form_last_name : string;
  form_id_ : option nat;
}.

Section Search.

(** The collaborators outside this layer: the form's validation and the
    two provider-backed queries, which give the matching inmates, the
    providers' error messages and the store after their upserts. *)
Variable validate : InmateSearchForm → bool.
Variable query_by_name :
  string → string → Store → list (nat * Inmate) * list string * Store.
Variable query_by_inmate_id :
  option nat → Store → list (nat * Inmate) * list string * Store.

Definition search_form : Outcome :=
  render_template "search_inmates.html" [("form", AForm)].

(** The query a validated search runs: by name when both names are given,
    by identifier otherwise. *)
Definition search_query (form : InmateSearchForm) (s : Store) :
    list (nat * Inmate) * list string * Store :=
  let first := form_first_name form in
  let last := form_last_name form in
  if Py.truthy first && Py.truthy last
  then query_by_name first last s
  else query_by_inmate_id (form_id_ form) s.

Definition search_inmates (method : Method) (form : InmateSearchForm)
    (w : World) : Outcome * World :=
  match method with
  | GET => (search_form, w)
  | POST =>
      if validate form then
        let '(found, errors, s) := search_query form (db w) in
        let w1 := foldl (λ w0 e, flash e "alert-warning" w0) (set_db s w) errors in
        match found with
        | [] =>
            (search_form, flash "no inmates matched your search" "alert-warning" w1)
        | [(autoid, _)] => (redirect "view_inmate" autoid, w1)
        | _ => (render_template "list_inmates.html" [("inmates", AInmates found)], w1)
        end
      else (search_form, w)
  end.

End Search.

(** ** [view_inmate] *)

Definition set_lookups (l : list timestamp) (i : Inmate) : Inmate :=
  {| inmate_jurisdiction := inmate_jurisdiction i; inmate_id := inmate_id i;
     inmate_first_name := inmate_first_name i;
     inmate_last_name := inmate_last_name i;
     inmate_unit := inmate_unit i; inmate_lookups := l |}.

(** Modelled from the spec: the relationship [Inmate.lookups] of
    [ibp/models.py] (not among the sources) loads the inmate's lookups most
    recent first, whatever the order in which the rows were written. *)
Definition lookups_of (i : Inmate) : list timestamp :=
  @merge_sort _ (λ a b, (b ≤ a)%Z) (λ a b, decide (b ≤ a)%Z) (inmate_lookups i).

(** The inmate a query returns: its [lookups] are the list the
    relationship loads. *)
Definition loaded (i : Inmate) : Inmate := set_lookups (lookups_of i) i.

(** [del lookups[2:]] followed by [lookups.append(now)], on the list the
    relationship loaded. *)
Definition record_lookup (now : timestamp) (lookups : list timestamp) :
    list timestamp :=
  take 2 lookups ++ [now].

Definition view_inmate (now : timestamp) (today : date) (autoid : nat)
    (w : World) : Outcome * World :=
  match inmates (db w) !! autoid with
  | None => (not_found, w)
  | Some inmate =>
      let inmate1 := set_lookups (record_lookup now (lookups_of inmate)) inmate in
      let s := set_inmates (<[autoid := inmate1]> (inmates (db w))) (db w) in
      let w1 := set_db s w in
      match inmates s !! autoid with
      | None => (Uncaught "NoResultFound", w1)
      | Some inmate2 =>
          (render_template "view_inmate.html"
             [("inmate", AInmate autoid (loaded inmate2));
              ("postmarkdate", AText (flask_session w1 !! "postmarkdate"));
              ("date_today", ADate today);
              ("comment_form", AForm)],
           w1)
      end
  end.

(** ** [add_request] *)

Definition bad_postmark : Outcome :=
  Respond 400 (Text "Please enter the USPS postmark date on the envelope.").

Definition add_request (today : date) (inmate_autoid : nat)
    (form : gmap string string) (w : World) : Outcome * World :=
  match inmates (db w) !! inmate_autoid with
  | None => (not_found, w)
  | Some inmate =>
      let date_str := default "" (form !! "postmarkdate") in
      match Strptime.strptime date_str with
      | None => (bad_postmark, w)
      | Some postmarkdate =>
          let w1 := session_set "postmarkdate" (strftime_Ymd postmarkdate) w in
          let action := default "Filled" (form !! "action") in
          let request :=
            {| request_action := action;
               request_date_postmarked := postmarkdate;
               request_date_processed := today;
               request_inmate := Some inmate_autoid;
               request_shipment := None |} in
          let autoid := new_autoid (requests (db w1)) in
          let s := set_requests (<[autoid := request]> (requests (db w1))) (db w1) in
          let w2 := set_db s w1 in
          match requests s !! autoid with
          | None => (Uncaught "NoResultFound", w2)
          | Some stored =>
              (jsonify
                 [("request_autoid", JStr (Py.str autoid));
                  ("request", JHtml "request.html" [("request", ARequest autoid stored)])],
               w2)
          end
      end
  end.

(** ** [request_info] *)

Definition no_inmate : Outcome :=
  Respond 400 (Text "Request does not have an associated inmate").

(** [unit and unit.<field> or 'N/A'] *)
Definition unit_field_or_na (unit : option (nat * Unit)) (field : Unit → string) :
    string :=
  match unit with
  | None => "N/A"
  | Some (_, u) => Py.or_else (field u) "N/A"
  end.

Definition request_info (autoid : nat) (w : World) : Outcome :=
  match requests (db w) !! autoid with
  | None => not_found
  | Some request =>
      match inmate_of (db w) request with
      | None => no_inmate
      | Some (_, inmate) =>
          let unit := unit_of (db w) inmate in
          jsonify
            [("inmate_jurisdiction", JStr (inmate_jurisdiction inmate));
             ("inmate_name",
              JStr (inmate_last_name inmate ++ ", " ++ inmate_first_name inmate));
             ("inmate_id", JStr (Py.zfill 8 (inmate_id inmate)));
             ("package_id", JInt (Z.of_nat autoid));
             ("unit_name", JStr (unit_field_or_na unit unit_street1));
             ("unit_shipping_method",
              JStr (unit_field_or_na unit unit_shipping_method))]
      end
  end.

(** ** [ship_requests] *)

Record ShipmentForm := {
  form_request_ids : list nat;
  form_weight : Z;
  form_postage : Z;
  form_tracking_code : string;
}.

Definition set_shipment (sid : option nat) (r : Request) : Request :=
  {| request_action := request_action r;
     request_date_postmarked := request_date_postmarked r;
     request_date_processed := request_date_processed r;
     request_inmate := request_inmate r; request_shipment := sid |}.

(** How the [for] loop over the requests ends: it runs to the end of the
    iterator, or a [return] (or exception) leaves the handler. *)
Inductive Loop :=
| Completed (s : Store) (pending : list nat)
| Left (o : Outcome) (s : Store).

Section Ship.

(** Collaborators outside this layer: the form's validation and the
    refresh of an inmate row from its provider (kept in the store the
    handler leaves behind, also when it returns early). *)
Variable validate : ShipmentForm → bool.
Variable try_fetch_update : Inmate → Inmate.

(** The order in which the interpreter iterates over a set of identifiers;
    the language does not fix it. *)
Variable iterate : gset nat → list nat.

(** [requests = map(get_request_from_autoid, request_ids)] is a one-shot
    iterator.  Its state is the list of identifiers it has not yet turned
    into requests; whatever consumes it hands the rest to the next
    consumer.

    [next(r.inmate.unit for r in requests if r.inmate.unit is not None)]:
    the first unit found, and the iterator where the search stopped. *)
Fixpoint first_unit (s : Store) (pending : list nat) :
    Outcome + (nat * Unit) * list nat :=
  match pending with
  | [] => inl (Uncaught "StopIteration")
  | autoid :: rest =>
      match requests s !! autoid with
      | None => inl not_found
      | Some r =>
          match inmate_of s r with
          | None => inl (Uncaught "AttributeError")
          | Some (_, inmate) =>
              match unit_of s inmate with
              | Some u => inr (u, rest)
              | None => first_unit s rest
              end
          end
      end
  end.

Definition unassigned : Outcome :=
  Respond 400 (Text "inmate for request %d is unassigned").

Definition mixed_units (unit : Unit) : Outcome :=
  Respond 400
    (Text ("inmates are not all assigned to '" ++ unit_name unit ++ "' unit")).

(** [for request in requests: ...] over what the iterator still holds;
    the loop ends when the iterator is exhausted. *)
Fixpoint check_units (unit : Unit) (s : Store) (pending : list nat) : Loop :=
  match pending with
  | [] => Completed s []
  | autoid :: rest =>
      match requests s !! autoid with
      | None => Left not_found s
      | Some r =>
          match inmate_of s r with
          | None => Left (Uncaught "AttributeError") s
          | Some (k, inmate) =>
              let inmate1 := try_fetch_update inmate in
              let s1 := set_inmates (<[k := inmate1]> (inmates s)) s in
              match unit_of s1 inmate1 with
              | None => Left unassigned s1
              | Some (_, u) =>
                  if decide (unit_name u = unit_name unit)
                  then check_units unit s1 rest
                  else Left (mixed_units unit) s1
              end
          end
      end
  end.

(** What Python code can pass where a collection is expected: a list, or
    a [map] iterator with the identifiers it has not yet yielded. *)
Inductive Iterable :=
| PyList (autoids : list nat)
| PyMap (pending : list nat).

(** Modelled from the spec: [Shipment.requests] of [ibp/models.py] (not
    among the sources) is the ORM's list relationship that aggregates the
    Requests of a Shipment.  The constructor assigns it through the ORM's
    collection setter, which takes a list-like value and refuses any other
    iterable, a [map] iterator among them, with a [TypeError]
    (incompatible collection type), before anything is added to the
    session. *)
Definition shipment_requests (given : Iterable) : Outcome + list nat :=
  match given with
  | PyList autoids => inr autoids
  | PyMap _ => inl (Uncaught "TypeError")
  end.

(** [session.add(shipment); session.commit()] *)
Definition add_shipment (sh : Shipment) (attached : list nat) (s : Store) :
    Store :=
  let sid := new_autoid (shipments s) in
  let rs := foldr (λ rid m, alter (set_shipment (Some sid)) rid m)
                  (requests s) attached in
  set_requests rs (set_shipments (<[sid := sh]> (shipments s)) s).

Definition ship_requests (today : date) (form : ShipmentForm) (w : World) :
    Outcome * World :=
  if negb (validate form) then (Respond 400 (Text "form data invalid"), w)
  else
    let request_ids : gset nat := list_to_set (form_request_ids form) in
    let pending := iterate request_ids in
    match first_unit (db w) pending with
    | inl o => (o, w)
    | inr ((unit_key, unit), pending1) =>
        match check_units unit (db w) pending1 with
        | Left o s => (o, set_db s w)
        | Completed s pending2 =>
            match shipment_requests (PyMap pending2) with
            | inl o => (o, set_db s w)
            | inr attached =>
                let shipment :=
                  {| shipment_date_shipped := today;
                     shipment_unit := unit_key;
                     shipment_weight := form_weight form;
                     shipment_postage := form_postage form;
                     shipment_tracking_code := form_tracking_code form |} in
                (jsonify [], set_db (add_shipment shipment attached s) w)
            end
        end
    end.

End Ship.

(** ** The metrics queries

    The SQL of the three handlers, evaluated over the tables of the
    store.  Dates are stored as [YYYY-MM-DD] text; comparisons are the
    byte-wise text comparisons of SQLite. *)

Module Sql.

(** [strftime('%Y', d)] and [strftime('%Y-%m', d)] *)
Definition strftime_Y (d : date) : string := Py.zfill 4 (year d).
Definition strftime_Ym (d : date) : string :=
  Py.zfill 4 (year d) ++ "-" ++ Py.zfill 2 (month d).

(** [a >= b] on text *)
Definition ge (a b : string) : bool := String.leb b a.

(** [GROUP BY key]: one group per distinct key, holding its rows. *)
Definition group_by {K A} `{EqDecision K} (key : A → K) (rows : list A) :
    list (K * list A) :=
  (λ k, (k, filter (λ r, key r = k) rows)) <$> remove_dups (key <$> rows).

(** [ORDER BY col ASC] on a text column. *)
Definition order_by {A} (col : A → string) (rows : list A) : list A :=
  merge_sort (λ a b, Is_true (String.leb (col a) (col b))) rows.

(** The value of a bare column of a grouped query: that of one row of the
    group. *)
Definition bare {A} (col : A → string) (group : list A) : string :=
  match group with
  | r :: _ => col r
  | [] => ""
  end.

(** [min(col)] over a group. *)
Definition min_text (l : list string) : string :=
  match l with
  | [] => ""
  | x :: rest => foldl (λ m a, if String.ltb a m then a else m) x rest
  end.

Definition sum (l : list Z) : Z := foldr Z.add 0%Z l.

(** The integers of the database engine are 64-bit. *)
Definition int64 (z : Z) : bool := ((- 2 ^ 63 <=? z) && (z <? 2 ^ 63))%Z.

(** [SUM(col)] over the integers of a group, row after row: the running
    total is a 64-bit integer, and the query fails with "integer overflow"
    once an addition leaves that range. *)
Definition sum_int64 (l : list Z) : option Z :=
  foldl (λ running x,
           total ← running;
           if int64 (total + x) then Some (total + x)%Z else None)
        (Some 0%Z) l.

End Sql.

(** [strftime('%Y', d) >= '2006-06'], the [WHERE] clause the three queries
    share. *)
Definition after_cutoff (d : date) : bool :=
  Sql.ge (Sql.strftime_Y d) "2006-06".

Definition table {A} (t : gmap nat A) : list A := (map_to_list t).*2.

Definition request_counts_rows (s : Store) : list (string * Z) :=
  let rows :=
    filter (λ r, request_action r = "Filled"
                 ∧ Is_true (after_cutoff (request_date_postmarked r)))
           (table (requests s)) in
  let groups :=
    Sql.group_by (λ r, Sql.strftime_Ym (request_date_postmarked r)) rows in
  let ordered :=
    Sql.order_by
      (λ g, Sql.bare (λ r, strftime_Ymd (request_date_postmarked r)) g.2)
      groups in
  (λ g, (g.1, Z.of_nat (length g.2))) <$> ordered.

Definition new_request_counts_rows (s : Store) : list (string * Z) :=
  let rows :=
    filter (λ r, request_action r = "Filled"
                 ∧ Is_true (after_cutoff (request_date_postmarked r)))
           (table (requests s)) in
  let firsts :=
    (λ g, Sql.min_text
            ((λ r, Sql.strftime_Ym (request_date_postmarked r)) <$> g.2))
    <$> Sql.group_by request_inmate rows in
  let groups := Sql.group_by (λ ym : string, ym) firsts in
  let ordered := Sql.order_by (λ g : string * list string, g.1) groups in
  (λ g, (g.1, Z.of_nat (length g.2))) <$> ordered.

Definition shipping_volume_rows (s : Store) : option (list (string * Z)) :=
  let rows :=
    filter (λ sh, Is_true (after_cutoff (shipment_date_shipped sh)))
           (table (shipments s)) in
  let groups :=
    Sql.group_by (λ sh, Sql.strftime_Ym (shipment_date_shipped sh)) rows in
  let ordered :=
    Sql.order_by
      (λ g, Sql.bare (λ sh, strftime_Ymd (shipment_date_shipped sh)) g.2)
      groups in
  mapM (λ g, volume ← Sql.sum_int64 (shipment_weight <$> g.2);
             Some (g.1, volume))
       ordered.

Definition request_counts (w : World) : Outcome :=
  let rows := request_counts_rows (db w) in
  jsonify [("dates", JStrs rows.*1); ("counts", JInts rows.*2)].

Definition new_request_counts (w : World) : Outcome :=
  let rows := new_request_counts_rows (db w) in
  jsonify [("dates", JStrs rows.*1); ("counts", JInts rows.*2)].

(** [pounds = [r[1] // 16 for r in rows]]; a query that fails raises the
    engine's error out of the handler. *)
Definition shipping_volume (w : World) : Outcome :=
  match shipping_volume_rows (db w) with
  | None => Uncaught "OperationalError"
  | Some rows =>
      jsonify [("dates", JStrs rows.*1);
               ("pounds", JInts ((λ r, (r.2 `div` 16)%Z) <$> rows))]
  end.

(** ** The marshmallow schemas ([ibp/schemas.py])

    A schema is its list of declared fields; [load] is marshmallow's
    deserialization of an input mapping through the fields that are not
    [dump_only]: the [required] check, the null check, the field type's own
    conversion, then the field's validators, with the messages collected per
    field. *)

Module Schemas.

(** JSON-compatible input values. *)
Inductive Value :=
| VNull
| VStr (s : string)
| VInt (z : Z)
| VBool (b : bool).

(** Deserialized values; [LRaw] is an undeclared key kept as it came. *)
Inductive Loaded :=
| LStr (s : string)
| LInt (z : Z)
| LDate (d : date)
| LDateTime (t : timestamp)
| LRaw (v : Value).

Global Instance Value_eq_dec : EqDecision Value.
Proof. solve_decision. Defined.

Global Instance Loaded_eq_dec : EqDecision Loaded.
Proof. solve_decision. Defined.

Record Field := {
  f_deserialize : Value → option Loaded;   (* [None]: the "invalid" error *)
  f_invalid : string;                      (* its message *)
  f_validate : list (Loaded → option string);
  f_required : bool;
  f_dump_only : bool;
}.

Definition Schema := list (string * Field).

Inductive Unknown := EXCLUDE | INCLUDE | RAISE.

(** *** [marshmallow.validate] *)

Module validate.

(** [Length] is only put on string fields here; on another value [len]
    has no meaning. *)
Definition Length (min : nat) (v : Loaded) : option string :=
  match v with
  | LStr s =>
      if (String.length s <? min)%nat
      then Some ("Shorter than minimum length " ++ Py.str min ++ ".")
      else None
  | _ => Some "Invalid input."
  end.

Fixpoint join (sep : string) (l : list string) : string :=
  match l with
  | [] => ""
  | [x] => x
  | x :: rest => x ++ sep ++ join sep rest
  end.

Definition OneOf (choices : list string) (v : Loaded) : option string :=
  if decide (v ∈ LStr <$> choices) then None
  else Some ("Must be one of: " ++ join ", " choices ++ ".").

End validate.

(** *** Deserialization *)

Inductive Got := Skipped | Failed (messages : list string) | Got_ (v : Loaded).

(** [Field.deserialize]: [raw] is [None] when the key is missing. *)
Definition field_deserialize (f : Field) (raw : option Value) : Got :=
  match raw with
  | None =>
      if f_required f then Failed ["Missing data for required field."]
      else Skipped
  | Some VNull => Failed ["Field may not be null."]
  | Some v =>
      match f_deserialize f v with
      | None => Failed [f_invalid f]
      | Some out =>
          match omap (λ check, check out) (f_validate f) with
          | [] => Got_ out
          | messages => Failed messages
          end
      end
  end.

Definition load_fields (schema : Schema) : Schema :=
  filter (λ nf, f_dump_only nf.2 = false) schema.

Definition Errors := gmap string (list string).

(** One turn of the loop over the load fields. *)
Definition load_field (data : gmap string Value)
    (acc : gmap string (list string) * gmap string Loaded)
    (nf : string * Field) : gmap string (list string) * gmap string Loaded :=
  match field_deserialize nf.2 (data !! nf.1) with
  | Skipped => acc
  | Failed messages => (<[nf.1 := messages]> acc.1, acc.2)
  | Got_ v => (acc.1, <[nf.1 := v]> acc.2)
  end.

(** Keys of the input that no load field declares. *)
Definition unknown_keys (schema : Schema) (data : gmap string Value) :
    list string :=
  filter (λ k, k ∉ (load_fields schema).*1) (elements (dom data)).

Definition load_unknown (schema : Schema) (unknown : Unknown)
    (data : gmap string Value)
    (acc : gmap string (list string) * gmap string Loaded) :
    gmap string (list string) * gmap string Loaded :=
  match unknown with
  | EXCLUDE => acc
  | INCLUDE =>
      (acc.1,
       foldl (λ res k, match data !! k with
                       | Some v => <[k := LRaw v]> res
                       | None => res
                       end)
             acc.2 (unknown_keys schema data))
  | RAISE =>
      (foldl (λ errs k, <[k := ["Unknown field."]]> errs) acc.1
             (unknown_keys schema data),
       acc.2)
  end.

(** [schema.load(data)]: the deserialized mapping, or the messages of the
    [ValidationError], per field. *)
Definition load (schema : Schema) (unknown : Unknown)
    (data : gmap string Value) :
    gmap string (list string) + gmap string Loaded :=
  let acc := foldl (load_field data) (∅, ∅) (load_fields schema) in
  let acc := load_unknown schema unknown data acc in
  if decide (acc.1 = ∅) then inr acc.2 else inl acc.1.

(** *** [marshmallow.fields] and the schema classes *)

Section Fields.

(** Conversions of the library: [Int] and [DateTime] fields are never
    reached on input by the Request and Comment schemas (they are
    [dump_only] there); [from_iso_date] is the ISO parser of
    [fields.Date]. *)
Variable int_of_value : Value → option Z.
Variable from_iso_datetime : string → option timestamp.
Variable from_iso_date : string → option date.

Definition mk_field (des : Value → option Loaded) (msg : string)
    (validate : list (Loaded → option string)) (required dump_only : bool) :
    Field :=
  {| f_deserialize := des; f_invalid := msg; f_validate := validate;
     f_required := required; f_dump_only := dump_only |}.

Definition Int := mk_field (λ v, LInt <$> int_of_value v) "Not a valid integer.".

Definition Str :=
  mk_field (λ v, match v with VStr s => Some (LStr s) | _ => None end)
           "Not a valid string.".

(** Falsy input is refused before the parser runs. *)
Definition Date :=
  mk_field (λ v, match v with
                 | VStr s =>
                     if Py.truthy s then LDate <$> from_iso_date s else None
                 | _ => None
                 end)
           "Not a valid date.".

Definition DateTime :=
  mk_field (λ v, match v with
                 | VStr s =>
                     if Py.truthy s
                     then LDateTime <$> from_iso_datetime s else None
                 | _ => None
                 end)
           "Not a valid datetime.".

Definition LookupSchema : Schema :=
  [("datetime", DateTime [] true false)].

Definition CommentSchema : Schema :=
  [("index", Int [] false true);
   ("datetime", DateTime [] false true);
   ("author", Str [validate.Length 1] true false);
   ("body", Str [validate.Length 1] true false)].

Definition RequestSchema : Schema :=
  [("index", Int [] false true);
   ("date_postmarked", Date [] true false);
   ("action", Str [validate.OneOf ["Tossed"; "Filled"]] true false)].

(** The module-level instances, [RequestSchema(unknown="EXCLUDE")] and
    [CommentSchema(unknown="EXCLUDE")]. *)
Definition request := load RequestSchema EXCLUDE.
Definition comment := load CommentSchema EXCLUDE.

End Fields.

(** A load fails naming [field] with [reason]. *)
Definition fails_with (r : gmap string (list string) + gmap string Loaded)
    (field reason : string) : Prop :=
  ∃ errors, r = inl errors ∧ errors !! field = Some [reason].

End Schemas.

(** * Further handlers of [ibp/views.py] *)

(** ** [delete_request] *)

Definition delete_request (autoid : nat) (w : World) : Outcome * World :=
  match requests (db w) !! autoid with
  | None => (not_found, w)
  | Some _ =>
      (Respond 200 (Text ""),
       set_db (set_requests (delete autoid (requests (db w))) (db w)) w)
  end.

(** ** [request_warnings] *)

(** What the handler answers: an ordinary response, or the list template
    rendered over the warning messages. *)
Inductive Reply :=
| Plain (o : Outcome)
| Fragment (messages : list string).

Section Warnings.

(** [warnings.inmate] and [warnings.request], of [ibp/warnings.py]. *)
Variable warnings_inmate : Inmate → list string.
Variable warnings_request : Inmate → date → list string.

Definition request_warnings (autoid : nat) (form : gmap string string)
    (w : World) : Reply * World :=
  match inmates (db w) !! autoid with
  | None => (Plain not_found, w)
  | Some inmate =>
      let date_str := default "" (form !! "postmarkdate") in
      match Strptime.strptime date_str with
      | None => (Plain bad_postmark, w)
      | Some postmarkdate =>
          let w1 := session_set "postmarkdate" (strftime_Ymd postmarkdate) w in
          let messages :=
            (warnings_inmate inmate ++ warnings_request inmate postmarkdate)%list in
          match messages with
          | [] => (Plain (Respond 200 (Text "")), w1)
          | _ => (Fragment messages, w1)
          end
      end
  end.

End Warnings.

(** ** [request_address] and [request_destination] *)

Module Title.

Definition is_lower (c : ascii) : bool :=
  (97 <=? nat_of_ascii c)%nat && (nat_of_ascii c <=? 122)%nat.
Definition is_upper (c : ascii) : bool :=
  (65 <=? nat_of_ascii c)%nat && (nat_of_ascii c <=? 90)%nat.
Definition to_upper (c : ascii) : ascii := ascii_of_nat (nat_of_ascii c - 32).
Definition to_lower (c : ascii) : ascii := ascii_of_nat (nat_of_ascii c + 32).

(** [str.title()] on ASCII text: a letter that follows a letter is
    lowered, any other letter is raised. *)
Fixpoint go (previous_is_cased : bool) (s : string) : string :=
  match s with
  | EmptyString => EmptyString
  | String c rest =>
      if is_lower c then
        String (if previous_is_cased then c else to_upper c) (go true rest)
      else if is_upper c then
        String (if previous_is_cased then to_lower c else c) (go true rest)
      else String c (go false rest)
  end.

Definition title (s : string) : string := go false s.

End Title.

Definition not_assigned : Outcome :=
  Respond 400 (Text "inmate is not assigned to a unit").

(** ["inmate %d is not assigned to a unit".format(inmate.autoid)]: the text
    has no replacement field, so the argument is dropped. *)
Definition not_assigned_destination : Outcome :=
  Respond 400 (Text "inmate %d is not assigned to a unit").

Section Address.

Variable try_fetch_update : Inmate → Inmate.

(** [inmate = request.inmate; inmate.try_fetch_update(); unit = inmate.unit]:
    the refreshed inmate, its unit, and the store holding the refreshed
    row; [None] when the request has no inmate. *)
Definition refreshed (s : Store) (r : Request) :
    option (Inmate * option (nat * Unit) * Store) :=
  match inmate_of s r with
  | None => None
  | Some (k, inmate) =>
      let inmate1 := try_fetch_update inmate in
      let s1 := set_inmates (<[k := inmate1]> (inmates s)) s in
      Some (inmate1, unit_of s1 inmate1, s1)
  end.

Definition request_address (autoid : nat) (w : World) : Outcome * World :=
  match requests (db w) !! autoid with
  | None => (not_found, w)
  | Some request =>
      match refreshed (db w) request with
      | None => (Uncaught "AttributeError", w)
      | Some (inmate, None, s) => (not_assigned, set_db s w)
      | Some (inmate, Some (_, unit), s) =>
          let inmate_name :=
            Title.title (inmate_first_name inmate) ++ " "
            ++ Title.title (inmate_last_name inmate) ++ " #"
            ++ Py.zfill 8 (inmate_id inmate) in
          (jsonify [("name", JStr inmate_name);
                    ("street1", JStr (unit_street1 unit));
                    ("street2", JStr (unit_street2 unit));
                    ("city", JStr (unit_city unit));
                    ("state", JStr (unit_state unit));
                    ("zipcode", JStr (unit_zipcode unit))],
           set_db s w)
      end
  end.

Definition request_destination (autoid : nat) (w : World) : Outcome * World :=
  match requests (db w) !! autoid with
  | None => (not_found, w)
  | Some request =>
      match refreshed (db w) request with
      | None => (Uncaught "AttributeError", w)
      | Some (inmate, None, s) => (not_assigned_destination, set_db s w)
      | Some (inmate, Some (_, unit), s) =>
          (jsonify [("name", JStr (unit_name unit))], set_db s w)
      end
  end.

End Address.

(** ** [unit_autoids] and [unit_address] *)

(** [{unit.name: unit.autoid for unit in models.Unit.query}]: a later unit
    of the same name replaces an earlier one. *)
Definition unit_autoids_dict (s : Store) : gmap string nat :=
  foldl (λ d ku, <[unit_name ku.2 := ku.1]> d) ∅ (map_to_list (units s)).

Definition unit_autoids (w : World) : Outcome :=
  jsonify ((λ kv, (kv.1, JInt (Z.of_nat kv.2)))
             <$> map_to_list (unit_autoids_dict (db w))).

(** [name] is the configured [shipping/unit_address_name]. *)
Definition unit_address (name : string) (autoid : nat) (w : World) : Outcome :=
  match units (db w) !! autoid with
  | None => not_found
  | Some unit =>
      jsonify [("name", JStr name);
               ("street1", JStr (unit_street1 unit));
               ("street2", JStr (unit_street2 unit));
               ("city", JStr (unit_city unit));
               ("state", JStr (unit_state unit));
               ("zipcode", JStr (unit_zipcode unit))]
  end.

(** ** [ShipmentSchema] ([ibp/schemas.py]) *)

Section ShipmentFields.

Variable int_of_value : Schemas.Value → option Z.
Variable from_iso_date : string → option date.

Definition ShipmentSchema : Schemas.Schema :=
  [("date_shipped", Schemas.Date from_iso_date [] false false);
   ("tracking_url", Schemas.Str [] false false);
   ("tracking_code", Schemas.Str [] false false);
   ("weight", Schemas.Int int_of_value [] false false);
   ("postage", Schemas.Int int_of_value [] false false)].

(** [shipment = ShipmentSchema(unknown="EXCLUDE")] *)
Definition shipment := Schemas.load ShipmentSchema Schemas.EXCLUDE.

End ShipmentFields.

(** * Vocabulary of the properties *)

Open Scope list_scope.
Open Scope nat_scope.

(** The relationship loads the lookups most recent first. *)
Definition most_recent_first (l : list timestamp) : Prop :=
  StronglySorted (λ a b, (b ≤ a)%Z) l.

(** A field of a JSON response. *)
Definition json_field (o : Outcome) (key : string) : option Json :=
  match o with
  | Respond _ (Jsonify fields) =>
      snd <$> find (λ kv, bool_decide (kv.1 = key)) fields
  | _ => None
  end.






(** Text without a dash: the digits of a printed number. *)
Fixpoint dashless (s : string) : Prop :=
  match s with
  | EmptyString => True
  | String c rest => c ≠ "-"%char ∧ dashless rest
  end.

(** The [WHERE] clause on a year, against the comparison of years it
    amounts to. *)
Definition year_agrees (y : nat) : bool :=
  Bool.eqb (Sql.ge (Py.zfill 4 y) "2006-06") (2007 <=? y).

Definition valid_years : list nat := seq 0 (10 * 1000).

Definition empty_series (values : string) : Outcome :=
  jsonify [("dates", JStrs []); (values, JInts [])].

(** * Sample data *)

Definition always_valid {A} (form : A) : bool := true.

Definition i_view : Inmate :=
  {| inmate_jurisdiction := "Texas"; inmate_id := 1234;
     inmate_first_name := "Ada"; inmate_last_name := "Roe";
     inmate_unit := None; inmate_lookups := [30; 20; 10]%Z |}.

Definition w_view : World :=
  {| db := {| units := ∅; inmates := {[ 7 := i_view ]};
              requests := ∅; shipments := ∅ |};
     flask_session := ∅; flashed := [] |}.

Definition one_match (first last : string) (s : Store) :
    list (nat * Inmate) * list string * Store :=
  ([(7, i_view)], ["provider timed out"], s).

Definition no_match_by_id (id_ : option nat) (s : Store) :
    list (nat * Inmate) * list string * Store :=
  ([], [], s).

Definition search_form_ada : InmateSearchForm :=
  {| form_first_name := "Ada"; form_last_name := "Roe"; form_id_ := None |}.

Definition request_of (inmate : nat) : Request :=
  {| request_action := "Filled";
     request_date_postmarked := Date 2024 2 1;
     request_date_processed := Date 2024 2 5;
     request_inmate := Some inmate;
     request_shipment := None |}.

Definition w_info : World :=
  {| db := {| units := ∅; inmates := {[ 7 := i_view ]};
              requests := {[ 3 := request_of 7 ]}; shipments := ∅ |};
     flask_session := ∅; flashed := [] |}.

Definition unit_a : Unit :=
  {| unit_name := "Polunsky"; unit_street1 := "3872 FM 350 South";
     unit_street2 := ""; unit_city := "Livingston"; unit_state := "TX";
     unit_zipcode := "77351"; unit_shipping_method := "Box" |}.

Definition unit_b : Unit :=
  {| unit_name := "Huntsville"; unit_street1 := "815 12th Street";
     unit_street2 := ""; unit_city := "Huntsville"; unit_state := "TX";
     unit_zipcode := "77348"; unit_shipping_method := "Individual" |}.

Definition inmate_in (unit : option nat) : Inmate :=
  {| inmate_jurisdiction := "Texas"; inmate_id := 1234;
     inmate_first_name := "Ada"; inmate_last_name := "Roe";
     inmate_unit := unit; inmate_lookups := [] |}.

(** Inmate 1 has no unit, inmate 2 is held in unit 1, inmate 3 in unit 2.
    Requests 1 and 3 are inmate 1's, request 2 is inmate 2's and request 4
    is inmate 3's. *)
Definition w_ship : World :=
  {| db := {| units := {[ 1 := unit_a; 2 := unit_b ]};
              inmates := {[ 1 := inmate_in None; 2 := inmate_in (Some 1);
                            3 := inmate_in (Some 2) ]};
              requests := {[ 1 := request_of 1; 2 := request_of 2;
                             3 := request_of 1; 4 := request_of 3 ]};
              shipments := ∅ |};
     flask_session := ∅; flashed := [] |}.

Definition ship_form (ids : list nat) : ShipmentForm :=
  {| form_request_ids := ids; form_weight := 32; form_postage := 500;
     form_tracking_code := "9400" |}.

(** The provider reports no change. *)
Definition no_update (i : Inmate) : Inmate := i.

(** Ascending order, as CPython iterates a set of small integers. *)
Definition ascending (ids : gset nat) : list nat :=
  merge_sort (λ a b, a ≤ b) (elements ids).

Definition run_ship (ids : list nat) : Outcome * World :=
  ship_requests always_valid no_update ascending (Date 2024 3 1)
    (ship_form ids) w_ship.

Definition filled_on (d : date) (inmate : nat) : Request :=
  {| request_action := "Filled"; request_date_postmarked := d;
     request_date_processed := d; request_inmate := Some inmate;
     request_shipment := None |}.

Definition shipment_on (d : date) (weight : Z) : Shipment :=
  {| shipment_date_shipped := d; shipment_unit := 1; shipment_weight := weight;
     shipment_postage := 500; shipment_tracking_code := "" |}.

(** A store holding the given requests and shipments, keyed 1, 2, ... *)
Definition w_metrics (rs : list Request) (l : list Shipment) : World :=
  {| db := {| units := ∅; inmates := ∅;
              requests := list_to_map (zip (seq 1 (length rs)) rs);
              shipments := list_to_map (zip (seq 1 (length l)) l) |};
     flask_session := ∅; flashed := [] |}.

Definition w_2006 : World :=
  w_metrics [filled_on (Date 2006 7 15) 1] [shipment_on (Date 2006 7 15) 32].

Definition w_2007 : World :=
  w_metrics [filled_on (Date 2007 1 2) 1] [shipment_on (Date 2007 1 2) 32].

(** Sample conversions for the schema fields. *)
Definition sample_int (v : Schemas.Value) : option Z :=
  match v with Schemas.VInt z => Some z | _ => None end.

Definition sample_datetime (s : string) : option timestamp := None.

(** * Vocabulary and sample data of the further properties *)

(** A date that exists: what [datetime.date] accepts. *)
Definition valid_date (d : date) : Prop :=
  make_date (year d) (month d) (day d) = Some d.

(** The [strptime] pattern after its year group. *)
Definition matches_after_year (y : nat) (s1 : string) :
    list (nat * nat * nat * string) :=
  s2 ← Strptime.match_dash s1;
  '(m, s3) ← Strptime.match_m s2;
  s4 ← Strptime.match_dash s3;
  '(d, s5) ← Strptime.match_d s4;
  [(y, m, d, s5)].

(** [zfill 4 y] is four digits that read [y]. *)
Definition year_digits_ok (y : nat) : bool :=
  match Strptime.match_Y (Py.zfill 4 y) with
  | [(y', EmptyString)] => y' =? y
  | _ => false
  end.

(** No two units share a name. *)
Definition unit_names_unique (s : Store) : Prop :=
  ∀ k1 k2 u1 u2,
    units s !! k1 = Some u1 → units s !! k2 = Some u2 →
    unit_name u1 = unit_name u2 → k1 = k2.

(** A request that exists and whose inmate has no unit. *)
Definition unassigned_request (s : Store) (autoid : nat) : Prop :=
  ∃ r k inmate,
    requests s !! autoid = Some r
    ∧ inmate_of s r = Some (k, inmate)
    ∧ unit_of s inmate = None.

(** The rows the two request queries count: Filled and past the [WHERE]
    clause. *)
Definition counted_requests (s : Store) : list Request :=
  filter (λ r, request_action r = "Filled"
               ∧ Is_true (after_cutoff (request_date_postmarked r)))
         (table (requests s)).

(** The Filled requests postmarked in a month. *)
Definition filled_in_month (s : Store) (yearmonth : string) : list Request :=
  filter (λ r, request_action r = "Filled"
               ∧ Sql.strftime_Ym (request_date_postmarked r) = yearmonth)
         (table (requests s)).

(** The number of distinct inmates that have a counted request. *)
Definition counted_inmates (s : Store) : nat :=
  length (remove_dups (request_inmate <$> counted_requests s)).

(** Two inputs agree on the keys a schema loads. *)
Definition same_on_load_fields (schema : Schemas.Schema)
    (d1 d2 : gmap string Schemas.Value) : Prop :=
  ∀ name, name ∈ (Schemas.load_fields schema).*1 → d1 !! name = d2 !! name.

(** The provider reports a move to another unit. *)
Definition move_to (unit : option nat) (i : Inmate) : Inmate :=
  {| inmate_jurisdiction := inmate_jurisdiction i; inmate_id := inmate_id i;
     inmate_first_name := inmate_first_name i;
     inmate_last_name := inmate_last_name i;
     inmate_unit := unit; inmate_lookups := inmate_lookups i |}.

(** A request whose inmate reference is null. *)
Definition w_orphan : World :=
  {| db := {| units := ∅; inmates := ∅;
              requests := {[ 5 := {| request_action := "Filled";
                                     request_date_postmarked := Date 2024 2 1;
                                     request_date_processed := Date 2024 2 5;
                                     request_inmate := None;
                                     request_shipment := None |} ]};
              shipments := ∅ |};
     flask_session := ∅; flashed := [] |}.

(** A second facility under the name of [unit_a]. *)
Definition unit_a_annex : Unit :=
  {| unit_name := "Polunsky"; unit_street1 := "12 Annex Road";
     unit_street2 := ""; unit_city := "Livingston"; unit_state := "TX";
     unit_zipcode := "77351"; unit_shipping_method := "Box" |}.

(** * Properties *)

(** ** Small checks of the helpers *)

Example strptime_ok : Strptime.strptime "2024-02-01" = Some (Date 2024 2 1).
Proof. reflexivity. Qed.

Example strptime_short : Strptime.strptime "2024-2-1" = Some (Date 2024 2 1).
Proof. reflexivity. Qed.

Example strptime_rest : Strptime.strptime "2024-02-011" = None.
Proof. reflexivity. Qed.

Example strptime_leap : Strptime.strptime "2024-02-29" = Some (Date 2024 2 29).
Proof. reflexivity. Qed.

Example strptime_not_leap : Strptime.strptime "2023-02-29" = None.
Proof. reflexivity. Qed.

Example strptime_empty : Strptime.strptime "" = None.
Proof. reflexivity. Qed.

Example strftime_ex : strftime_Ymd (Date 2024 2 1) = "2024-02-01".
Proof. vm_compute. reflexivity. Qed.

Example zfill_ex : Py.zfill 8 1234 = "00001234".
Proof. vm_compute. reflexivity. Qed.

(** ** The store hands out unused keys *)

Lemma new_autoid_fresh {A} (t : gmap nat A) : t !! new_autoid t = None.
Proof.
  apply not_elem_of_dom. intros Hin.
  apply elem_of_elements, max_list_elem_of_le in Hin.
  unfold new_autoid in Hin. lia.
Qed.

(** ** [view_inmate] *)

Lemma most_recent_first_split (l : list timestamp) (n : nat) :
  most_recent_first l →
  ∀ kept dropped, kept ∈ take n l → dropped ∈ drop n l → (dropped ≤ kept)%Z.
Proof.
  intros Hs. revert n. induction Hs as [|x l Hs IH Hx]; intros n kept dropped.
  - rewrite take_nil. by intros ?%elem_of_nil.
  - destruct n as [|n]; simpl.
    + by intros ?%elem_of_nil.
    + intros [->|Hk]%elem_of_cons Hd.
      * rewrite Forall_forall in Hx. apply Hx.
        by eapply subseteq_drop.
      * by eapply IH.
Qed.

Lemma lookups_of_most_recent_first (i : Inmate) :
  most_recent_first (lookups_of i).
Proof.
  unfold most_recent_first, lookups_of.
  assert (Transitive (λ a b : timestamp, (b ≤ a)%Z)) by (intros x y z ??; lia).
  assert (Total (λ a b : timestamp, (b ≤ a)%Z)) by (intros x y; lia).
  by apply StronglySorted_merge_sort.
Qed.

Lemma lookups_of_Permutation (i : Inmate) : lookups_of i ≡ₚ inmate_lookups i.
Proof. apply merge_sort_Permutation. Qed.

Lemma view_inmate_store now today autoid w inmate :
  inmates (db w) !! autoid = Some inmate →
  inmates (db (view_inmate now today autoid w).2) !! autoid
  = Some (set_lookups (record_lookup now (lookups_of inmate)) inmate).
Proof.
  intros H. unfold view_inmate. rewrite H. simpl.
  rewrite lookup_insert_eq. simpl. by rewrite lookup_insert_eq.
Qed.

(** C3. Viewing an inmate, whatever the stored lookups and the order they
    were written in, keeps the two most recent of them (the stored lookups
    split into the kept and the dropped ones, at most two are kept, and
    every dropped entry is no more recent than every kept one), stores the
    new timestamp with the kept ones, and leaves a history of at most three
    entries, which the relationship loads most recent first at the next
    view. *)
Theorem view_inmate_keeps_two_most_recent now today autoid w inmate :
  inmates (db w) !! autoid = Some inmate →
  ∃ inmate' kept dropped,
    inmates (db (view_inmate now today autoid w).2) !! autoid = Some inmate'
    ∧ inmate_lookups inmate ≡ₚ kept ++ dropped
    ∧ length kept = min 2 (length (inmate_lookups inmate))
    ∧ (∀ k d, k ∈ kept → d ∈ dropped → (d ≤ k)%Z)
    ∧ inmate_lookups inmate' = kept ++ [now]
    ∧ length (inmate_lookups inmate') ≤ 3
    ∧ most_recent_first (lookups_of inmate').
Proof.
  intros Hi.
  exists (set_lookups (record_lookup now (lookups_of inmate)) inmate),
    (take 2 (lookups_of inmate)), (drop 2 (lookups_of inmate)).
  split; [by apply view_inmate_store|].
  split; [by rewrite take_drop, lookups_of_Permutation|].
  split; [by rewrite length_take, (Permutation_length (lookups_of_Permutation inmate))|].
  split; [apply most_recent_first_split, lookups_of_most_recent_first|].
  split; [done|].
  split; [|apply lookups_of_most_recent_first].
  unfold set_lookups, record_lookup. cbn [inmate_lookups].
  rewrite length_app, length_take. cbn [length]. lia.
Qed.

Lemma view_inmate_keeps_two_most_recent_witness :
  ∃ inmate' kept dropped,
    inmates (db (view_inmate 40%Z (Date 2024 2 1) 7 w_view).2) !! 7 = Some inmate'
    ∧ inmate_lookups i_view ≡ₚ kept ++ dropped
    ∧ length kept = min 2 (length (inmate_lookups i_view))
    ∧ (∀ k d, k ∈ kept → d ∈ dropped → (d ≤ k)%Z)
    ∧ inmate_lookups inmate' = kept ++ [40%Z]
    ∧ length (inmate_lookups inmate') ≤ 3
    ∧ most_recent_first (lookups_of inmate').
Proof.
  apply (view_inmate_keeps_two_most_recent 40%Z (Date 2024 2 1) 7 w_view i_view).
  reflexivity.
Defined.

Example view_inmate_three :
  inmate_lookups <$> inmates (db (view_inmate 40%Z (Date 2024 2 1) 7 w_view).2) !! 7
  = Some [30; 20; 40]%Z.
Proof. vm_compute. reflexivity. Qed.

(** The page shows the inmate as queried again after the commit, the new
    timestamp first. *)
Example view_inmate_renders :
  (view_inmate 40%Z (Date 2024 2 1) 7 w_view).1
  = render_template "view_inmate.html"
      [("inmate", AInmate 7 (set_lookups [40; 30; 20]%Z i_view));
       ("postmarkdate", AText None);
       ("date_today", ADate (Date 2024 2 1));
       ("comment_form", AForm)].
Proof. vm_compute. reflexivity. Qed.

(** A second view loads the history the first one left most recent first,
    and so keeps the timestamp the first view recorded. *)
Example view_inmate_twice :
  inmate_lookups
    <$> inmates (db (view_inmate 50%Z (Date 2024 2 2) 7
                       (view_inmate 40%Z (Date 2024 2 1) 7 w_view).2).2) !! 7
  = Some [40; 30; 50]%Z.
Proof. vm_compute. reflexivity. Qed.

(** A missing inmate is a 404 and nothing changes. *)
Lemma view_inmate_missing now today autoid w :
  inmates (db w) !! autoid = None →
  view_inmate now today autoid w = (not_found, w).
Proof. intros H. unfold view_inmate. by rewrite H. Qed.

(** ** [add_request] *)

(** Whatever the inmate, a postmark date that does not parse leaves the
    world as it was. *)
Lemma add_request_bad_date_no_mutation today autoid form w :
  Strptime.strptime (default "" (form !! "postmarkdate")) = None →
  (add_request today autoid form w).2 = w.
Proof.
  intros Hd. unfold add_request.
  destruct (inmates (db w) !! autoid); [by rewrite Hd|done].
Qed.

(** C4. For an existing inmate, a postmark date that [strptime] refuses
    under ['%Y-%m-%d'] gives the 400 response with its message, and the
    world (store, session, flashed messages) is unchanged: no Request is
    created. *)
Theorem add_request_bad_date today autoid form w inmate :
  inmates (db w) !! autoid = Some inmate →
  Strptime.strptime (default "" (form !! "postmarkdate")) = None →
  add_request today autoid form w
  = (Respond 400 (Text "Please enter the USPS postmark date on the envelope."), w).
Proof. intros Hi Hd. unfold add_request. by rewrite Hi, Hd. Qed.

Lemma add_request_bad_date_witness :
  add_request (Date 2024 3 1) 7 {[ "postmarkdate" := "2024-02-30" ]} w_view
  = (Respond 400 (Text "Please enter the USPS postmark date on the envelope."),
     w_view).
Proof.
  apply (add_request_bad_date (Date 2024 3 1) 7
           {[ "postmarkdate" := "2024-02-30" ]} w_view i_view).
  - reflexivity.
  - vm_compute. reflexivity.
Defined.

(** C5. With a valid postmark date and no [action] key in the form, the
    one Request created has action "Filled", the parsed postmark date, and
    the day of the submission as its processing date. *)
Theorem add_request_defaults_to_filled today autoid form w inmate d :
  inmates (db w) !! autoid = Some inmate →
  Strptime.strptime (default "" (form !! "postmarkdate")) = Some d →
  form !! "action" = None →
  let created := new_autoid (requests (db w)) in
  let result := add_request today autoid form w in
  requests (db w) !! created = None
  ∧ requests (db result.2) !! created
    = Some {| request_action := "Filled";
              request_date_postmarked := d;
              request_date_processed := today;
              request_inmate := Some autoid;
              request_shipment := None |}
  ∧ (∀ k, k ≠ created → requests (db result.2) !! k = requests (db w) !! k)
  ∧ status_of result.1 = Some 200.
Proof.
  intros Hi Hd Ha created result.
  split; [apply new_autoid_fresh|].
  subst result. unfold add_request. rewrite Hi, Hd, Ha.
  cbn -[new_autoid]. rewrite lookup_insert_eq. cbn -[new_autoid].
  fold created. rewrite lookup_insert_eq.
  split; [done|]. split; [|done].
  intros k Hk. by rewrite lookup_insert_ne.
Qed.

Lemma add_request_defaults_to_filled_witness :
  let created := new_autoid (requests (db w_view)) in
  let result :=
    add_request (Date 2024 3 1) 7 {[ "postmarkdate" := "2024-02-01" ]} w_view in
  requests (db w_view) !! created = None
  ∧ requests (db result.2) !! created
    = Some {| request_action := "Filled";
              request_date_postmarked := Date 2024 2 1;
              request_date_processed := Date 2024 3 1;
              request_inmate := Some 7;
              request_shipment := None |}
  ∧ (∀ k, k ≠ created → requests (db result.2) !! k = requests (db w_view) !! k)
  ∧ status_of result.1 = Some 200.
Proof.
  apply (add_request_defaults_to_filled (Date 2024 3 1) 7
           {[ "postmarkdate" := "2024-02-01" ]} w_view i_view (Date 2024 2 1)).
  - reflexivity.
  - vm_compute. reflexivity.
  - reflexivity.
Defined.

(** A submitted action is stored as it came. *)
Example add_request_tossed :
  request_action <$>
    requests (db (add_request (Date 2024 3 1) 7
                    {[ "postmarkdate" := "2024-02-01"; "action" := "Tossed" ]}
                    w_view).2) !! 1
  = Some "Tossed".
Proof. vm_compute. reflexivity. Qed.

(** ** [search_inmates] *)

Section SearchProps.

Variable validate : InmateSearchForm → bool.
Variable query_by_name :
  string → string → Store → list (nat * Inmate) * list string * Store.
Variable query_by_inmate_id :
  option nat → Store → list (nat * Inmate) * list string * Store.

Lemma flashed_foldl errors w :
  flashed (foldl (λ w0 e, flash e "alert-warning" w0) w errors)
  = flashed w ++ ((λ e, (e, "alert-warning")) <$> errors).
Proof.
  revert w. induction errors as [|e errors IH]; intros w; simpl.
  - by rewrite app_nil_r.
  - rewrite IH. simpl. by rewrite <- app_assoc.
Qed.

(** The providers' errors are flashed as warnings, whatever is found. *)
Lemma search_inmates_flashes_errors form w found errors s :
  validate form = true →
  search_query query_by_name query_by_inmate_id form (db w) = (found, errors, s) →
  ∀ e, e ∈ errors →
    (e, "alert-warning")
    ∈ flashed (search_inmates validate query_by_name query_by_inmate_id
                 POST form w).2.
Proof.
  intros Hv Hq e He. unfold search_inmates. rewrite Hv, Hq.
  assert ((e, "alert-warning")
          ∈ flashed (foldl (λ w0 e, flash e "alert-warning" w0) (set_db s w) errors))
    as Hin.
  { rewrite flashed_foldl, elem_of_app. right.
    apply list_elem_of_fmap. by exists e. }
  destruct found as [|[? ?] [|? ?]]; simpl; try done.
  rewrite elem_of_app. by left.
Qed.

(** C6. A validated search: no match flashes the warning and renders the
    search form again, without a redirect; exactly one match redirects to
    that inmate's detail view; several matches render the list. *)
Theorem search_inmates_dispatch form w found errors s :
  validate form = true →
  search_query query_by_name query_by_inmate_id form (db w) = (found, errors, s) →
  let result :=
    search_inmates validate query_by_name query_by_inmate_id POST form w in
  (length found = 0 →
     result.1 = render_template "search_inmates.html" [("form", AForm)]
     ∧ is_redirect result.1 = false
     ∧ last (flashed result.2)
       = Some ("no inmates matched your search", "alert-warning"))
  ∧ (∀ autoid inmate, found = [(autoid, inmate)] →
       result.1 = Respond 302 (Location "view_inmate" autoid))
  ∧ (1 < length found →
       result.1 = render_template "list_inmates.html" [("inmates", AInmates found)]).
Proof.
  intros Hv Hq result. subst result. unfold search_inmates.
  rewrite Hv, Hq.
  split; [|split].
  - destruct found as [|? ?]; [|done]. intros _.
    split; [done|]. split; [done|]. simpl. by rewrite last_snoc.
  - by intros autoid inmate ->.
  - destruct found as [|[? ?] [|? ?]]; simpl; try lia. done.
Qed.

End SearchProps.

Lemma search_inmates_dispatch_witness :
  (search_inmates always_valid one_match no_match_by_id POST search_form_ada
     w_view).1
  = Respond 302 (Location "view_inmate" 7).
Proof.
  apply (proj1 (proj2 (search_inmates_dispatch always_valid one_match
                         no_match_by_id search_form_ada w_view [(7, i_view)]
                         ["provider timed out"] (db w_view) eq_refl eq_refl))
           7 i_view eq_refl).
Defined.

Example search_inmates_none :
  search_inmates always_valid one_match no_match_by_id POST
    {| form_first_name := ""; form_last_name := "Roe"; form_id_ := Some 5 |} w_view
  = (render_template "search_inmates.html" [("form", AForm)],
     flash "no inmates matched your search" "alert-warning" w_view).
Proof. reflexivity. Qed.

Example search_inmates_get :
  search_inmates always_valid one_match no_match_by_id GET search_form_ada w_view
  = (render_template "search_inmates.html" [("form", AForm)], w_view).
Proof. reflexivity. Qed.

(** ** [request_info] *)

(** C10. A request whose inmate has no unit is answered 200 with
    [unit_name] and [unit_shipping_method] both "N/A"; the answer is 400
    exactly when the request exists and has no inmate. *)
Theorem request_info_without_unit autoid w :
  (∀ request k inmate,
     requests (db w) !! autoid = Some request →
     inmate_of (db w) request = Some (k, inmate) →
     unit_of (db w) inmate = None →
     status_of (request_info autoid w) = Some 200
     ∧ json_field (request_info autoid w) "unit_name" = Some (JStr "N/A")
     ∧ json_field (request_info autoid w) "unit_shipping_method"
       = Some (JStr "N/A"))
  ∧ (status_of (request_info autoid w) = Some 400
     ↔ ∃ request, requests (db w) !! autoid = Some request
                  ∧ inmate_of (db w) request = None).
Proof.
  split.
  - intros request k inmate Hr Hi Hu. unfold request_info.
    rewrite Hr, Hi, Hu. done.
  - unfold request_info.
    destruct (requests (db w) !! autoid) as [request|] eqn:Hr.
    + destruct (inmate_of (db w) request) as [[k inmate]|] eqn:Hi; simpl.
      * split; [done|]. intros (r & Heq & Hn). congruence.
      * split; [|done]. intros _. by exists request.
    + simpl. split; [done|]. by intros (r & Heq & _).
Qed.

Lemma request_info_without_unit_witness :
  status_of (request_info 3 w_info) = Some 200
  ∧ json_field (request_info 3 w_info) "unit_name" = Some (JStr "N/A")
  ∧ json_field (request_info 3 w_info) "unit_shipping_method" = Some (JStr "N/A").
Proof.
  apply (proj1 (request_info_without_unit 3 w_info) (request_of 7) 7 i_view).
  - reflexivity.
  - reflexivity.
  - reflexivity.
Defined.

Example request_info_fields :
  request_info 3 w_info
  = jsonify [("inmate_jurisdiction", JStr "Texas");
             ("inmate_name", JStr "Roe, Ada");
             ("inmate_id", JStr "00001234");
             ("package_id", JInt 3);
             ("unit_name", JStr "N/A");
             ("unit_shipping_method", JStr "N/A")].
Proof. vm_compute. reflexivity. Qed.

(** With a unit, [unit_name] carries the unit's first street line. *)
Example request_info_with_unit :
  json_field (request_info 2 w_ship) "unit_name" = Some (JStr "3872 FM 350 South")
  ∧ json_field (request_info 2 w_ship) "unit_shipping_method" = Some (JStr "Box").
Proof. vm_compute. done. Qed.

Example request_info_missing : request_info 9 w_info = not_found.
Proof. reflexivity. Qed.

(** ** [ship_requests] *)

Section ShipProps.

Variable validate : ShipmentForm → bool.
Variable try_fetch_update : Inmate → Inmate.
Variable iterate : gset nat → list nat.

(** The search for the first unit never ends in a 200 answer of its own. *)
Lemma first_unit_error s pending o :
  first_unit s pending = inl o → status_of o ≠ Some 200.
Proof.
  induction pending as [|autoid rest IH]; simpl; [by intros [= <-]|].
  destruct (requests s !! autoid) as [r|]; [|by intros [= <-]].
  destruct (inmate_of s r) as [[k inmate]|]; [|by intros [= <-]].
  destruct (unit_of s inmate); [done|]. apply IH.
Qed.

(** When no pending request has an inmate with a unit, [next] has nothing
    to give. *)
Lemma first_unit_none_assigned s pending :
  Forall (λ autoid, ∃ r k inmate,
            requests s !! autoid = Some r
            ∧ inmate_of s r = Some (k, inmate)
            ∧ unit_of s inmate = None) pending →
  first_unit s pending = inl (Uncaught "StopIteration").
Proof.
  induction 1 as [|autoid rest (r & k & inmate & Hr & Hi & Hu) _ IH]; simpl;
    [done|].
  by rewrite Hr, Hi, Hu.
Qed.

(** The loop leaves the requests and the shipments alone; when it runs to
    its end the iterator is exhausted. *)
Lemma check_units_keeps_requests unit s pending :
  match check_units try_fetch_update unit s pending with
  | Completed s' pending' =>
      pending' = [] ∧ requests s' = requests s ∧ shipments s' = shipments s
  | Left _ s' => requests s' = requests s ∧ shipments s' = shipments s
  end.
Proof.
  revert s. induction pending as [|autoid rest IH]; intros s; simpl; [done|].
  destruct (requests s !! autoid) as [r|]; [|done].
  destruct (inmate_of s r) as [[k inmate]|]; [|done].
  match goal with
  | |- context [unit_of ?s1 ?i1] => destruct (unit_of s1 i1) as [[? u]|]
  end; [|done].
  case_decide; [|done].
  match goal with
  | |- context [check_units _ _ ?s1 rest] => specialize (IH s1)
  end.
  destruct (check_units _ _ _ rest); simpl in *; done.
Qed.

Lemma check_units_left unit s pending o s' :
  check_units try_fetch_update unit s pending = Left o s' →
  status_of o ≠ Some 200.
Proof.
  revert s. induction pending as [|autoid rest IH]; intros s; simpl; [done|].
  destruct (requests s !! autoid) as [r|]; [|by intros [= <- _]].
  destruct (inmate_of s r) as [[k inmate]|]; [|by intros [= <- _]].
  destruct (unit_of _ _) as [[? u]|]; [|by intros [= <- _]].
  case_decide; [|by intros [= <- _]]. apply IH.
Qed.

(** X16. No run of the handler attaches a request to a shipment: the
    requests table is left as it was. *)
Lemma ship_requests_requests_unchanged today form w :
  requests (db (ship_requests validate try_fetch_update iterate today form w).2)
  = requests (db w).
Proof.
  unfold ship_requests. destruct (validate form); simpl; [|done].
  destruct (first_unit _ _) as [o|[[k unit] pending1]]; [done|].
  pose proof (check_units_keeps_requests unit (db w) pending1) as H.
  destruct (check_units _ _ _ _) as [s pending2|o s]; simpl.
  - destruct H as (-> & Hr & _). simpl. done.
  - by destruct H.
Qed.

(** X17. No run of the handler answers 200 and no run stores a Shipment:
    a run that passes every check ends in the [TypeError] of the Shipment
    constructor, which is handed the [map] iterator. *)
Lemma ship_requests_stores_no_shipment today form w :
  let result := ship_requests validate try_fetch_update iterate today form w in
  status_of result.1 ≠ Some 200
  ∧ shipments (db result.2) = shipments (db w).
Proof.
  intros result. subst result.
  unfold ship_requests. destruct (validate form); simpl; [|done].
  destruct (first_unit _ _) as [o|[[k unit] pending1]] eqn:Hf.
  - split; [by eapply first_unit_error|done].
  - pose proof (check_units_keeps_requests unit (db w) pending1) as H.
    destruct (check_units _ _ _ _) as [s pending2|o s] eqn:Hc; simpl.
    + by destruct H as (_ & _ & Hs).
    + destruct H as [_ Hs]. split; [by eapply check_units_left|done].
Qed.

End ShipProps.

(** C1. One request whose inmate is held in a unit is submitted: the
    search for the unit and the loop pass, and the Shipment constructor,
    handed the [map] iterator in place of a list of requests, raises
    [TypeError], which the handler does not catch.  The answer is not a
    200, no Shipment is stored, and request 2 stays unattached. *)
Theorem ship_requests_creates_no_shipment :
  (run_ship [2]).1 = Uncaught "TypeError"
  ∧ status_of (run_ship [2]).1 ≠ Some 200
  ∧ size (shipments (db (run_ship [2]).2)) = 0
  ∧ shipments (db (run_ship [2]).2) = shipments (db w_ship)
  ∧ request_shipment <$> requests (db (run_ship [2]).2) !! 2 = Some None.
Proof. vm_compute. done. Qed.

(** C2. One request whose inmate has no unit is submitted: [next] finds
    no unit and raises [StopIteration], which the handler does not catch;
    the answer is not the 400 of the unassigned-inmate check.  Nothing is
    stored. *)
Theorem ship_requests_unassigned_raises :
  run_ship [1] = (Uncaught "StopIteration", w_ship)
  ∧ status_of (run_ship [1]).1 ≠ Some 400.
Proof. split; [reflexivity|discriminate]. Qed.

(** A request without unit that the iterator yields before the first
    request with one is consumed by the search and never checked: the run
    reaches the Shipment constructor instead of the 400 of the loop. *)
Example ship_requests_skips_unassigned :
  (run_ship [1; 2]).1 = Uncaught "TypeError"
  ∧ size (shipments (db (run_ship [1; 2]).2)) = 0.
Proof. vm_compute. done. Qed.

(** The checks of the loop, on the requests that reach it. *)
Example ship_requests_400_unassigned :
  (run_ship [2; 3]).1 = Respond 400 (Text "inmate for request %d is unassigned")
  ∧ size (shipments (db (run_ship [2; 3]).2)) = 0.
Proof. vm_compute. done. Qed.

Example ship_requests_400_mixed :
  (run_ship [4; 2; 2]).1
  = Respond 400 (Text "inmates are not all assigned to 'Polunsky' unit")
  ∧ size (shipments (db (run_ship [4; 2; 2]).2)) = 0.
Proof. vm_compute. done. Qed.

Example ship_requests_404 : (run_ship [9]).1 = not_found.
Proof. vm_compute. reflexivity. Qed.

Example ship_requests_empty : (run_ship []).1 = Uncaught "StopIteration".
Proof. vm_compute. reflexivity. Qed.

(** ** The metrics queries *)

Lemma dashless_app a b : dashless a → dashless b → dashless (a ++ b)%string.
Proof. induction a as [|c a IH]; simpl; [done|]. intros [? ?] ?. auto. Qed.

Lemma digit_char_not_dash n : Py.digit_char n ≠ "-"%char.
Proof.
  unfold Py.digit_char.
  pose proof (Nat.mod_upper_bound n 10 ltac:(lia)) as Hlt.
  destruct (n mod 10) as [|k]; [discriminate|].
  do 9 (destruct k as [|k]; [discriminate|]). lia.
Qed.

Lemma digits_go_dashless fuel n acc :
  dashless acc → dashless (Py.digits_go fuel n acc).
Proof.
  revert n acc. induction fuel as [|fuel IH]; intros n acc Hacc;
    cbn [Py.digits_go]; [done|].
  assert (dashless (String (Py.digit_char n) acc)) as Hs
    by (split; [apply digit_char_not_dash|done]).
  destruct (n / 10 =? 0); [done|]. by apply IH.
Qed.

Lemma zeros_dashless k : dashless (Py.zeros k).
Proof. induction k; simpl; [done|]. split; [discriminate|done]. Qed.

Lemma zfill_dashless w n : dashless (Py.zfill w n).
Proof.
  unfold Py.zfill. apply dashless_app; [apply zeros_dashless|].
  by apply digits_go_dashless.
Qed.

Lemma split_at_dash a b x y :
  dashless a → dashless b →
  (a ++ String "-" x)%string = (b ++ String "-" y)%string → a = b.
Proof.
  revert b. induction a as [|c a IH]; intros [|d b]; simpl.
  - done.
  - intros _ [Hd _] [= Heq _]. by destruct Hd.
  - intros [Hc _] _ [= Heq _]. by destruct Hc.
  - intros [_ Ha] [_ Hb] [= -> Heq]. f_equal. by apply IH.
Qed.

(** Rows of one month are on the same side of the cutoff. *)
Lemma same_month_same_cutoff d1 d2 :
  Sql.strftime_Ym d1 = Sql.strftime_Ym d2 → after_cutoff d1 = after_cutoff d2.
Proof.
  unfold Sql.strftime_Ym, after_cutoff, Sql.strftime_Y. intros Heq.
  apply split_at_dash in Heq; [by rewrite Heq|apply zfill_dashless..].
Qed.

Lemma elem_of_group_by {K A} `{EqDecision K} (key : A → K) rows k g :
  (k, g) ∈ Sql.group_by key rows
  ↔ k ∈ key <$> rows ∧ g = filter (λ r, key r = k) rows.
Proof.
  unfold Sql.group_by. rewrite list_elem_of_fmap. split.
  - intros (k' & Heq & Hk). rewrite elem_of_remove_dups in Hk.
    by injection Heq as -> ->.
  - intros [Hk ->]. exists k. by rewrite elem_of_remove_dups.
Qed.

Lemma elem_of_order_by {A} (col : A → string) rows x :
  x ∈ Sql.order_by col rows ↔ x ∈ rows.
Proof. unfold Sql.order_by. by rewrite merge_sort_Permutation. Qed.

(** The rows come out in ascending order of the sort column. *)
Lemma order_by_sorted {A} (col : A → string) rows :
  Sorted (λ a b, Is_true (String.leb (col a) (col b))) (Sql.order_by col rows).
Proof.
  unfold Sql.order_by. apply Sorted_merge_sort.
  intros a b. destruct (String.leb_total (col a) (col b)) as [H|H].
  - left. by rewrite H.
  - right. by rewrite H.
Qed.













(** A sum that leaves the engine's integers fails the query, and the
    handler with it. *)
Example shipping_volume_overflow :
  shipping_volume
    (w_metrics [] [shipment_on (Date 2023 5 9) (2 ^ 62);
                   shipment_on (Date 2023 5 20) (2 ^ 62)])
  = Uncaught "OperationalError".
Proof. vm_compute. reflexivity. Qed.

Example shipping_volume_two_months :
  shipping_volume
    (w_metrics []
       [shipment_on (Date 2023 6 2) 40; shipment_on (Date 2023 5 9) 33;
        shipment_on (Date 2023 5 20) 31; shipment_on (Date 2006 7 1) 64])
  = jsonify [("dates", JStrs ["2023-05"; "2023-06"]); ("pounds", JInts [4; 2]%Z)].
Proof. vm_compute. reflexivity. Qed.

(** *** The cutoff *)

Lemma years_checked : forallb year_agrees valid_years = true.
Proof. vm_compute. reflexivity. Qed.

Lemma valid_year_agrees y : y < 10 * 1000 → year_agrees y = true.
Proof.
  intros Hy. apply (proj1 (forallb_forall year_agrees valid_years) years_checked).
  unfold valid_years. apply in_seq. lia.
Qed.

(** X21. The [WHERE] clause compares the year alone with "2006-06": for a
    four-digit year it keeps exactly the dates of 2007 and later. *)
Lemma after_cutoff_iff d :
  year d < 10 * 1000 → after_cutoff d = true ↔ 2007 ≤ year d.
Proof.
  intros Hy%valid_year_agrees. apply Bool.eqb_prop in Hy.
  unfold after_cutoff, Sql.strftime_Y. rewrite Hy. apply Nat.leb_le.
Qed.

(** C8. A Filled request postmarked 2006-07-15 and a shipment of the same
    day lie after 2006-06, yet the [WHERE] clause refuses them (the text
    "2006" sorts before "2006-06") and the three aggregates come back
    empty. *)
Theorem metrics_omit_2006 :
  after_cutoff (Date 2006 7 15) = false
  ∧ request_counts w_2006 = empty_series "counts"
  ∧ new_request_counts w_2006 = empty_series "counts"
  ∧ shipping_volume w_2006 = empty_series "pounds".
Proof. vm_compute. done. Qed.

Example metrics_keep_2007 :
  request_counts w_2007
  = jsonify [("dates", JStrs ["2007-01"]); ("counts", JInts [1%Z])]
  ∧ new_request_counts w_2007
    = jsonify [("dates", JStrs ["2007-01"]); ("counts", JInts [1%Z])]
  ∧ shipping_volume w_2007
    = jsonify [("dates", JStrs ["2007-01"]); ("pounds", JInts [2%Z])].
Proof. vm_compute. done. Qed.

(** Months come out in chronological order; a first-time request counts in
    the month of the inmate's earliest request. *)
Example request_counts_ordered :
  let w := w_metrics [filled_on (Date 2010 3 5) 1; filled_on (Date 2009 12 1) 1;
                      filled_on (Date 2010 3 9) 2; filled_on (Date 2006 12 1) 3] [] in
  request_counts w
  = jsonify [("dates", JStrs ["2009-12"; "2010-03"]); ("counts", JInts [1; 2]%Z)]
  ∧ new_request_counts w
    = jsonify [("dates", JStrs ["2009-12"; "2010-03"]); ("counts", JInts [1; 1]%Z)].
Proof. vm_compute. done. Qed.

(** ** The schemas *)

Module SchemaProps.
Import Schemas.

Lemma load_field_other data fs acc name :
  name ∉ fs.*1 →
  (foldl (load_field data) acc fs).1 !! name = acc.1 !! name.
Proof.
  revert acc. induction fs as [|[n f] fs IH]; intros acc Hn; simpl; [done|].
  rewrite fmap_cons, not_elem_of_cons in Hn. destruct Hn as [Hne Hn].
  rewrite IH by done. unfold load_field. simpl.
  destruct (field_deserialize f (data !! n)); simpl; try done.
  by rewrite lookup_insert_ne.
Qed.

Lemma load_field_failed data fs acc name f messages :
  NoDup fs.*1 → (name, f) ∈ fs →
  field_deserialize f (data !! name) = Failed messages →
  (foldl (load_field data) acc fs).1 !! name = Some messages.
Proof.
  revert acc. induction fs as [|[n g] fs IH]; intros acc Hnd Hin Hf; simpl.
  - by apply elem_of_nil in Hin.
  - rewrite fmap_cons in Hnd. apply NoDup_cons in Hnd as [Hn Hnd].
    apply elem_of_cons in Hin as [[= <- <-]|Hin].
    + rewrite load_field_other by done.
      unfold load_field. simpl. rewrite Hf. simpl. by rewrite lookup_insert_eq.
    + by apply IH.
Qed.

(** The handling of undeclared keys does not touch the messages of a
    declared field. *)
Lemma load_unknown_declared schema unknown data acc name :
  name ∈ (load_fields schema).*1 →
  (load_unknown schema unknown data acc).1 !! name = acc.1 !! name.
Proof.
  intros Hin. destruct unknown; simpl; try done.
  unfold unknown_keys.
  assert (Forall (λ k, k ≠ name)
            (filter (λ k, k ∉ (load_fields schema).*1) (elements (dom data))))
    as Hall.
  { apply Forall_forall. intros k [Hk _]%list_elem_of_filter ->. done. }
  revert Hall. generalize (acc.1).
  induction (filter _ _) as [|k ks IH]; intros errs Hall; simpl; [done|].
  apply Forall_cons in Hall as [Hk Hall]. rewrite IH by done.
  by rewrite lookup_insert_ne.
Qed.

(** A declared load field whose deserialization fails makes the load fail
    under that field's name, with that field's message. *)
Lemma load_fails schema unknown data name f reason :
  NoDup (load_fields schema).*1 → (name, f) ∈ load_fields schema →
  field_deserialize f (data !! name) = Failed [reason] →
  fails_with (load schema unknown data) name reason.
Proof.
  intros Hnd Hin Hf. unfold fails_with, load.
  set (acc := load_unknown _ _ _ _).
  assert (acc.1 !! name = Some [reason]) as Hacc.
  { subst acc. rewrite load_unknown_declared.
    - by eapply load_field_failed.
    - apply list_elem_of_fmap. by exists (name, f). }
  case_decide as Hempty.
  - rewrite Hempty, lookup_empty in Hacc. done.
  - by eexists.
Qed.

Lemma one_of_rejects s :
  s ≠ "Tossed" → s ≠ "Filled" →
  validate.OneOf ["Tossed"; "Filled"] (LStr s)
  = Some "Must be one of: Tossed, Filled.".
Proof.
  intros H1 H2. unfold validate.OneOf. case_decide as Hin; [|done].
  simpl in Hin. rewrite !elem_of_cons, elem_of_nil in Hin.
  destruct Hin as [[= ->]|[[= ->]|[]]]; done.
Qed.

Section Claims.

Variable int_of_value : Value → option Z.
Variable from_iso_datetime : string → option timestamp.
Variable from_iso_date : string → option date.

Local Abbreviation RequestSchema := (RequestSchema int_of_value from_iso_date).
Local Abbreviation CommentSchema := (CommentSchema int_of_value from_iso_datetime).

Lemma request_load_fields :
  load_fields RequestSchema
  = [("date_postmarked", Date from_iso_date [] true false);
     ("action", Str [validate.OneOf ["Tossed"; "Filled"]] true false)].
Proof. reflexivity. Qed.

Lemma comment_load_fields :
  load_fields CommentSchema
  = [("author", Str [validate.Length 1] true false);
     ("body", Str [validate.Length 1] true false)].
Proof. reflexivity. Qed.

Local Ltac pick_field :=
  rewrite ?request_load_fields, ?comment_load_fields; solve [repeat constructor].

Local Ltac distinct_names :=
  repeat (constructor; [rewrite ?elem_of_cons, elem_of_nil; intuition discriminate|]);
  constructor.

Lemma request_fails unknown data name f reason :
  (name, f) ∈ load_fields RequestSchema →
  field_deserialize f (data !! name) = Failed [reason] →
  fails_with (load RequestSchema unknown data) name reason.
Proof. apply load_fails. rewrite request_load_fields. simpl. distinct_names. Qed.

Lemma comment_fails unknown data name f reason :
  (name, f) ∈ load_fields CommentSchema →
  field_deserialize f (data !! name) = Failed [reason] →
  fails_with (load CommentSchema unknown data) name reason.
Proof. apply load_fails. rewrite comment_load_fields. simpl. distinct_names. Qed.

(** C9. Loading through the Request or the Comment schema fails, with a
    message under the field's name, when [date_postmarked] is missing or
    not a date, when [action] is missing or anything but "Tossed" or
    "Filled", and when [author] or [body] is missing or the empty string. *)
Theorem required_fields_fail_by_name unknown data :
  (data !! "date_postmarked" = None →
     fails_with (load RequestSchema unknown data)
       "date_postmarked" "Missing data for required field.")
  ∧ (∀ s, data !! "date_postmarked" = Some (VStr s) → from_iso_date s = None →
       fails_with (load RequestSchema unknown data)
         "date_postmarked" "Not a valid date.")
  ∧ (data !! "action" = None →
       fails_with (load RequestSchema unknown data)
         "action" "Missing data for required field.")
  ∧ (∀ s, data !! "action" = Some (VStr s) → s ≠ "Tossed" → s ≠ "Filled" →
       fails_with (load RequestSchema unknown data)
         "action" "Must be one of: Tossed, Filled.")
  ∧ (∀ v, data !! "action" = Some v → v ≠ VStr "Tossed" → v ≠ VStr "Filled" →
       ∃ reason, fails_with (load RequestSchema unknown data) "action" reason)
  ∧ (∀ field, field = "author" ∨ field = "body" →
       data !! field = None →
       fails_with (load CommentSchema unknown data)
         field "Missing data for required field.")
  ∧ (∀ field, field = "author" ∨ field = "body" →
       data !! field = Some (VStr "") →
       fails_with (load CommentSchema unknown data)
         field "Shorter than minimum length 1.").
Proof.
  repeat split.
  - intros H. eapply request_fails; [pick_field|]. by rewrite H.
  - intros s H Hs. eapply request_fails; [pick_field|].
    rewrite H. simpl. destruct (Py.truthy s); [by rewrite Hs|done].
  - intros H. eapply request_fails; [pick_field|]. by rewrite H.
  - intros s H H1 H2. eapply request_fails; [pick_field|].
    rewrite H. simpl. by rewrite one_of_rejects.
  - intros v H H1 H2. destruct v as [|s|z|b]; eexists;
      (eapply request_fails; [pick_field|]); rewrite H; simpl;
      [done| |done|done].
    rewrite one_of_rejects; [done|congruence..].
  - intros field [-> | ->] H;
      (eapply comment_fails; [pick_field|]); by rewrite H.
  - intros field [-> | ->] H;
      (eapply comment_fails; [pick_field|]); by rewrite H.
Qed.

End Claims.

Lemma required_fields_fail_by_name_witness :
  fails_with (request sample_int Strptime.strptime {[ "action" := VStr "Filled" ]})
    "date_postmarked" "Missing data for required field."
  ∧ fails_with
      (request sample_int Strptime.strptime
         {[ "date_postmarked" := VStr "2024-02-01"; "action" := VStr "Lost" ]})
      "action" "Must be one of: Tossed, Filled."
  ∧ fails_with
      (comment sample_int sample_datetime
         {[ "author" := VStr ""; "body" := VStr "hello" ]})
      "author" "Shorter than minimum length 1."
  ∧ fails_with (comment sample_int sample_datetime {[ "author" := VStr "Ann" ]})
      "body" "Missing data for required field.".
Proof.
  split; [|split; [|split]].
  - apply (proj1 (required_fields_fail_by_name sample_int sample_datetime
                    Strptime.strptime EXCLUDE {[ "action" := VStr "Filled" ]})).
    reflexivity.
  - apply (proj1 (proj2 (proj2 (proj2
             (required_fields_fail_by_name sample_int sample_datetime
                Strptime.strptime EXCLUDE
                {[ "date_postmarked" := VStr "2024-02-01";
                   "action" := VStr "Lost" ]})))) "Lost");
      [reflexivity|discriminate|discriminate].
  - apply (proj2 (proj2 (proj2 (proj2 (proj2 (proj2
             (required_fields_fail_by_name sample_int sample_datetime
                Strptime.strptime EXCLUDE
                {[ "author" := VStr ""; "body" := VStr "hello" ]}))))))
             "author"); [by left|reflexivity].
  - apply (proj1 (proj2 (proj2 (proj2 (proj2 (proj2
             (required_fields_fail_by_name sample_int sample_datetime
                Strptime.strptime EXCLUDE {[ "author" := VStr "Ann" ]}))))))
             "body"); [by right|reflexivity].
Defined.

(** A well-formed request loads. *)
Example request_loads :
  request sample_int Strptime.strptime
    {[ "date_postmarked" := VStr "2024-02-01"; "action" := VStr "Filled";
       "index" := VInt 4 ]}
  = inr {[ "date_postmarked" := LDate {| year := 2024; month := 2; day := 1 |};
           "action" := LStr "Filled" ]}.
Proof. vm_compute. reflexivity. Qed.

End SchemaProps.

(** * Further properties *)

(** ** The postmark date as text *)

Lemma year_digits_checked : forallb year_digits_ok valid_years = true.
Proof. vm_compute. reflexivity. Qed.

Lemma match_Y_app s rest y :
  Strptime.match_Y s = [(y, EmptyString)] →
  Strptime.match_Y (s ++ rest)%string = [(y, rest)].
Proof.
  destruct s as [|a [|b [|c [|d [|e s]]]]]; simpl; try done.
  - destruct (_ && _); [|done]. by intros [= ->].
  - destruct (_ && _); [|done]. by intros [= ->].
Qed.

Lemma match_Y_zfill y rest :
  y < 10 * 1000 → Strptime.match_Y (Py.zfill 4 y ++ rest)%string = [(y, rest)].
Proof.
  intros Hy. apply match_Y_app.
  assert (year_digits_ok y = true) as H.
  { apply (proj1 (forallb_forall year_digits_ok valid_years) year_digits_checked).
    unfold valid_years. apply in_seq. lia. }
  unfold year_digits_ok in H.
  destruct (Strptime.match_Y (Py.zfill 4 y)) as [|[y' [|? ?]] [|? ?]]; try done.
  by apply Nat.eqb_eq in H as ->.
Qed.

Lemma matches_split s y s1 :
  Strptime.match_Y s = [(y, s1)] →
  Strptime.matches s = matches_after_year y s1.
Proof.
  intros H. unfold Strptime.matches, matches_after_year. rewrite H.
  simpl. apply app_nil_r.
Qed.

Lemma month_day_text y m d :
  1 ≤ m ≤ 12 → 1 ≤ d ≤ 31 →
  ∃ more,
    matches_after_year y ("-" ++ Py.zfill 2 m ++ "-" ++ Py.zfill 2 d)%string
    = (y, m, d, EmptyString) :: more.
Proof.
  intros Hm Hd.
  destruct m as [|m]; [lia|].
  do 12 (destruct m as [|m];
    [destruct d as [|d]; [lia|];
     do 31 (destruct d as [|d]; [vm_compute; eexists; reflexivity|]); lia|]).
  lia.
Qed.

Lemma days_in_month_le y m : days_in_month y m ≤ 31.
Proof.
  unfold days_in_month.
  do 12 (destruct m as [|m]; [try destruct (is_leap y); lia|]). lia.
Qed.

Lemma make_date_Some y m d x :
  make_date y m d = Some x →
  x = Date y m d ∧ 1 ≤ y < 10 * 1000 ∧ 1 ≤ m ≤ 12 ∧ 1 ≤ d ≤ days_in_month y m.
Proof.
  unfold make_date.
  destruct (1 <=? y) eqn:H1; [|done].
  destruct (y <? 10 * 1000) eqn:H2; [|done].
  destruct (1 <=? m) eqn:H3; [|done].
  destruct (m <=? 12) eqn:H4; [|done].
  destruct (1 <=? d) eqn:H5; [|done].
  destruct (d <=? days_in_month y m) eqn:H6; [|done].
  simpl. intros [= <-].
  apply Nat.leb_le in H1, H3, H4, H5, H6. apply Nat.ltb_lt in H2.
  repeat split; lia.
Qed.

Lemma strptime_strftime d :
  valid_date d → Strptime.strptime (strftime_Ymd d) = Some d.
Proof.
  intros Hv. pose proof Hv as Hd.
  apply make_date_Some in Hd as (_ & Hy & Hm & Hday).
  pose proof (days_in_month_le (year d) (month d)).
  unfold Strptime.strptime, strftime_Ymd.
  rewrite (matches_split _ (year d) _ (match_Y_zfill _ _ (proj2 Hy))).
  destruct (month_day_text (year d) (month d) (day d)) as [more ->]; [lia..|].
  exact Hv.
Qed.

Lemma strptime_valid s d : Strptime.strptime s = Some d → valid_date d.
Proof.
  unfold Strptime.strptime.
  destruct (Strptime.matches s) as [|[[[y m] dd] [|? ?]] ?]; try done.
  intros H. pose proof H as H'. apply make_date_Some in H' as [-> _]. exact H.
Qed.

(** X1. A date that exists, of the year 1000 or later (the years that
    [strftime] writes with four digits on every platform), written with
    [strftime("%Y-%m-%d")] is read back by [strptime] as the same date. *)
Theorem strptime_strftime_round_trip d :
  valid_date d → 1000 ≤ year d →
  Strptime.strptime (strftime_Ymd d) = Some d.
Proof. intros Hv _. by apply strptime_strftime. Qed.

Lemma strptime_strftime_round_trip_witness :
  Strptime.strptime (strftime_Ymd (Date 2024 2 29)) = Some (Date 2024 2 29).
Proof.
  apply (strptime_strftime_round_trip (Date 2024 2 29)).
  - reflexivity.
  - simpl. lia.
Defined.

(** ** [add_request] and [delete_request] *)

(** X3. [add_request] stores a submitted action of the two the model
    knows as it came: "Tossed" stays "Tossed", and "Filled" is not only the
    default. *)
Theorem add_request_keeps_action today autoid form w inmate d a :
  inmates (db w) !! autoid = Some inmate →
  Strptime.strptime (default "" (form !! "postmarkdate")) = Some d →
  form !! "action" = Some a →
  a = "Tossed" ∨ a = "Filled" →
  requests (db (add_request today autoid form w).2)
    !! new_autoid (requests (db w))
  = Some {| request_action := a;
            request_date_postmarked := d;
            request_date_processed := today;
            request_inmate := Some autoid;
            request_shipment := None |}.
Proof.
  intros Hi Hd Ha _. unfold add_request. rewrite Hi, Hd, Ha.
  cbn -[new_autoid]. rewrite lookup_insert_eq. cbn -[new_autoid].
  by rewrite lookup_insert_eq.
Qed.

Lemma add_request_keeps_action_witness :
  requests (db (add_request (Date 2024 3 1) 7
                  {[ "postmarkdate" := "2024-2-1"; "action" := "Tossed" ]}
                  w_view).2)
    !! new_autoid (requests (db w_view))
  = Some {| request_action := "Tossed";
            request_date_postmarked := Date 2024 2 1;
            request_date_processed := Date 2024 3 1;
            request_inmate := Some 7;
            request_shipment := None |}.
Proof.
  apply (add_request_keeps_action (Date 2024 3 1) 7
           {[ "postmarkdate" := "2024-2-1"; "action" := "Tossed" ]}
           w_view i_view (Date 2024 2 1) "Tossed").
  - reflexivity.
  - vm_compute. reflexivity.
  - reflexivity.
  - by left.
Defined.

(** X4. Whatever it answers, [add_request] leaves the units, the inmates,
    the shipments and the flashed messages as they were, and every request
    that was stored is still stored unchanged. *)
Theorem add_request_frame today autoid form w :
  let w' := (add_request today autoid form w).2 in
  units (db w') = units (db w)
  ∧ inmates (db w') = inmates (db w)
  ∧ shipments (db w') = shipments (db w)
  ∧ flashed w' = flashed w
  ∧ requests (db w) ⊆ requests (db w').
Proof.
  unfold add_request.
  destruct (inmates (db w) !! autoid); [|done].
  destruct (Strptime.strptime _); [|done].
  cbn -[new_autoid]. rewrite lookup_insert_eq. cbn -[new_autoid].
  repeat split; try done.
  apply insert_subseteq, new_autoid_fresh.
Qed.

(** X5. After a successful [add_request] the session holds the postmark
    date as text that parses back to the date stored in the request (for a
    year of 1000 or later), however the date was typed. *)
Theorem add_request_session_reparses today autoid form w inmate d :
  inmates (db w) !! autoid = Some inmate →
  Strptime.strptime (default "" (form !! "postmarkdate")) = Some d →
  1000 ≤ year d →
  ∃ text,
    flask_session (add_request today autoid form w).2 !! "postmarkdate"
    = Some text
    ∧ Strptime.strptime text = Some d.
Proof.
  intros Hi Hd _. exists (strftime_Ymd d). split.
  - unfold add_request. rewrite Hi, Hd.
    cbn -[new_autoid]. rewrite lookup_insert_eq. cbn -[new_autoid].
    by rewrite lookup_insert_eq.
  - by apply strptime_strftime, (strptime_valid _ _ Hd).
Qed.

Lemma add_request_session_reparses_witness :
  ∃ text,
    flask_session (add_request (Date 2024 3 1) 7
                     {[ "postmarkdate" := "2024-2-1" ]} w_view).2
      !! "postmarkdate" = Some text
    ∧ Strptime.strptime text = Some (Date 2024 2 1).
Proof.
  apply (add_request_session_reparses (Date 2024 3 1) 7
           {[ "postmarkdate" := "2024-2-1" ]} w_view i_view (Date 2024 2 1)).
  - reflexivity.
  - vm_compute. reflexivity.
  - simpl. lia.
Defined.

(** X6. [delete_request] answers 404 exactly when the request is missing
    and 200 exactly when it exists; afterwards the request is gone, every
    other request is as it was, and nothing else has changed. *)
Theorem delete_request_removes_one autoid w :
  let result := delete_request autoid w in
  (status_of result.1 = Some 404 ↔ requests (db w) !! autoid = None)
  ∧ (status_of result.1 = Some 200 ↔ is_Some (requests (db w) !! autoid))
  ∧ requests (db result.2) !! autoid = None
  ∧ (∀ k, k ≠ autoid → requests (db result.2) !! k = requests (db w) !! k)
  ∧ units (db result.2) = units (db w)
  ∧ inmates (db result.2) = inmates (db w)
  ∧ shipments (db result.2) = shipments (db w)
  ∧ flask_session result.2 = flask_session w
  ∧ flashed result.2 = flashed w.
Proof.
  unfold delete_request.
  destruct (requests (db w) !! autoid) eqn:H; simpl.
  - split; [done|]. split; [by split|].
    split; [apply lookup_delete_eq|].
    split; [|done]. intros k Hk. by apply lookup_delete_ne.
  - split; [done|]. split; [split; [done|by intros [? ?]]|]. done.
Qed.



(** ** [view_inmate] *)

Lemma head_most_recent (l : list timestamp) (x : timestamp) :
  most_recent_first l → x ∈ l → (∀ t, t ∈ l → (t ≤ x)%Z) → head l = Some x.
Proof.
  intros Hs Hx Hmax. destruct l as [|y l]; [by apply elem_of_nil in Hx|].
  simpl. f_equal. apply StronglySorted_inv in Hs as [_ Hy].
  rewrite Forall_forall in Hy.
  pose proof (Hmax y ltac:(left)).
  apply elem_of_cons in Hx as [->|Hx]; [done|].
  specialize (Hy x Hx). simpl in Hy. lia.
Qed.

(** X8. [view_inmate] changes nothing but the inmate it shows: the other
    inmates, the units, the requests, the shipments, the session and the
    flashed messages stay as they were; of the inmate shown only the
    lookups change, the new timestamp is among them, there are at most
    three, and when the new timestamp is no older than the stored ones the
    history loaded at the next view begins with it. *)
Theorem view_inmate_frame now today autoid w :
  let w' := (view_inmate now today autoid w).2 in
  units (db w') = units (db w)
  ∧ requests (db w') = requests (db w)
  ∧ shipments (db w') = shipments (db w)
  ∧ flask_session w' = flask_session w
  ∧ flashed w' = flashed w
  ∧ (∀ k, k ≠ autoid → inmates (db w') !! k = inmates (db w) !! k)
  ∧ (∀ inmate', inmates (db w') !! autoid = Some inmate' →
       ∃ inmate, inmates (db w) !! autoid = Some inmate
                 ∧ inmate' = set_lookups (inmate_lookups inmate') inmate
                 ∧ now ∈ inmate_lookups inmate'
                 ∧ length (inmate_lookups inmate') ≤ 3
                 ∧ ((∀ t, t ∈ inmate_lookups inmate → (t ≤ now)%Z) →
                    head (lookups_of inmate') = Some now)).
Proof.
  unfold view_inmate.
  destruct (inmates (db w) !! autoid) as [inmate|] eqn:Hi.
  - simpl. rewrite lookup_insert_eq. simpl.
    repeat split; try done.
    + intros k Hk. by rewrite lookup_insert_ne.
    + rewrite lookup_insert_eq. intros inmate' [= <-]. exists inmate.
      split; [done|]. split; [done|]. cbn [inmate_lookups set_lookups].
      unfold record_lookup. split; [set_solver|].
      split; [rewrite length_app, length_take; cbn [length]; lia|].
      intros Hmax. apply head_most_recent.
      * apply lookups_of_most_recent_first.
      * rewrite lookups_of_Permutation. cbn [inmate_lookups]. set_solver.
      * intros t. rewrite lookups_of_Permutation. cbn [inmate_lookups].
        intros [Ht| ->%list_elem_of_singleton]%elem_of_app; [|lia].
        apply Hmax. rewrite <- lookups_of_Permutation.
        by eapply subseteq_take.
  - simpl. repeat split; try done. intros inmate' H. congruence.
Qed.

(** ** [search_inmates] *)

Lemma foldl_flash_rest errors w :
  db (foldl (λ w0 e, flash e "alert-warning" w0) w errors) = db w
  ∧ flask_session (foldl (λ w0 e, flash e "alert-warning" w0) w errors)
    = flask_session w.
Proof.
  revert w. induction errors as [|e errors IH]; intros w; simpl; [done|].
  destruct (IH (flash e "alert-warning" w)) as [-> ->]. done.
Qed.

Section SearchExtras.

Variable validate : InmateSearchForm → bool.
Variable query_by_name :
  string → string → Store → list (nat * Inmate) * list string * Store.
Variable query_by_inmate_id :
  option nat → Store → list (nat * Inmate) * list string * Store.

(** X9. A validated search leaves the store the query left and the
    session untouched, and flashes exactly the providers' errors, in their
    order and as warnings, followed by the no-match warning when nothing
    was found. *)
Theorem search_inmates_flashes form w found errors s :
  validate form = true →
  search_query query_by_name query_by_inmate_id form (db w) = (found, errors, s) →
  let w' := (search_inmates validate query_by_name query_by_inmate_id
               POST form w).2 in
  db w' = s
  ∧ flask_session w' = flask_session w
  ∧ flashed w'
    = flashed w ++ ((λ e, (e, "alert-warning")) <$> errors)
      ++ (if bool_decide (found = [])
          then [("no inmates matched your search", "alert-warning")] else []).
Proof.
  intros Hv Hq. unfold search_inmates. rewrite Hv, Hq.
  pose proof (foldl_flash_rest errors (set_db s w)) as [H1 H2].
  pose proof (flashed_foldl errors (set_db s w)) as H3.
  simpl in H1, H2, H3.
  destruct found as [|[? ?] [|? ?]]; simpl;
    rewrite ?H1, ?H2, ?H3, ?app_nil_r, <- ?app_assoc; done.
Qed.

End SearchExtras.

Lemma search_inmates_flashes_witness :
  let w' := (search_inmates always_valid one_match no_match_by_id POST
               search_form_ada w_view).2 in
  db w' = db w_view
  ∧ flask_session w' = flask_session w_view
  ∧ flashed w'
    = flashed w_view
      ++ ((λ e, (e, "alert-warning")) <$> ["provider timed out"])
      ++ (if bool_decide ([(7, i_view)] = [])
          then [("no inmates matched your search", "alert-warning")] else []).
Proof.
  apply (search_inmates_flashes always_valid one_match no_match_by_id
           search_form_ada w_view [(7, i_view)] ["provider timed out"]
           (db w_view) eq_refl eq_refl).
Defined.

(** ** [request_warnings] *)

Section WarningsProps.

Variable warnings_inmate : Inmate → list string.
Variable warnings_request : Inmate → date → list string.

(** X10. [request_warnings] never touches the store or the flashed
    messages; it answers 404 and the 400 of a bad postmark date on exactly
    the inputs on which [add_request] does, and leaves the session as
    [add_request] leaves it. *)
Theorem request_warnings_like_add_request today autoid form w :
  let warned := request_warnings warnings_inmate warnings_request autoid form w in
  let added := add_request today autoid form w in
  db warned.2 = db w
  ∧ flashed warned.2 = flashed w
  ∧ flask_session warned.2 = flask_session added.2
  ∧ (warned.1 = Plain not_found ↔ added.1 = not_found)
  ∧ (warned.1 = Plain bad_postmark ↔ added.1 = bad_postmark).
Proof.
  unfold request_warnings, add_request.
  destruct (inmates (db w) !! autoid) as [inmate|]; [|done].
  destruct (Strptime.strptime _) as [d|]; [|done].
  cbn -[new_autoid]. rewrite lookup_insert_eq. cbn -[new_autoid].
  destruct (warnings_inmate inmate ++ warnings_request inmate d); simpl; done.
Qed.

End WarningsProps.

(** ** [request_address] and [request_destination] *)

Section AddressProps.

Variable try_fetch_update : Inmate → Inmate.

(** X11. For a request without inmate [request_info] answers 400, while
    [request_address] and [request_destination], which do not test for it,
    fail with an [AttributeError] and change nothing. *)
Theorem request_without_inmate autoid w request :
  requests (db w) !! autoid = Some request →
  inmate_of (db w) request = None →
  status_of (request_info autoid w) = Some 400
  ∧ request_address try_fetch_update autoid w = (Uncaught "AttributeError", w)
  ∧ request_destination try_fetch_update autoid w = (Uncaught "AttributeError", w).
Proof.
  intros Hr Hi. unfold request_info, request_address, request_destination, refreshed.
  by rewrite Hr, Hi.
Qed.

(** X12. [request_address] and [request_destination] answer with the same
    status on every input and leave the same world behind. *)
Theorem request_address_destination_agree autoid w :
  status_of (request_address try_fetch_update autoid w).1
  = status_of (request_destination try_fetch_update autoid w).1
  ∧ (request_address try_fetch_update autoid w).2
    = (request_destination try_fetch_update autoid w).2.
Proof.
  unfold request_address, request_destination.
  destruct (requests (db w) !! autoid) as [r|]; [|done].
  destruct (refreshed try_fetch_update (db w) r) as [[[inmate [[k u]|]] s]|]; done.
Qed.

(** X13. Both endpoints answer from the unit the inmate is in after the
    refresh from the provider, whatever unit the stored row named. *)
Theorem request_address_uses_refreshed_unit autoid w request k inmate k' unit :
  requests (db w) !! autoid = Some request →
  inmate_of (db w) request = Some (k, inmate) →
  inmate_unit (try_fetch_update inmate) = Some k' →
  units (db w) !! k' = Some unit →
  json_field (request_address try_fetch_update autoid w).1 "street1"
  = Some (JStr (unit_street1 unit))
  ∧ json_field (request_address try_fetch_update autoid w).1 "zipcode"
    = Some (JStr (unit_zipcode unit))
  ∧ (request_destination try_fetch_update autoid w).1
    = jsonify [("name", JStr (unit_name unit))].
Proof.
  intros Hr Hi Hu Hk.
  unfold request_address, request_destination, refreshed.
  rewrite Hr, Hi. unfold unit_of. rewrite Hu. simpl. rewrite Hk. simpl.
  repeat split; done.
Qed.

(** When the refresh leaves the inmate without unit both endpoints answer
    400, whatever unit the stored row named. *)
Lemma request_address_refreshed_unassigned autoid w request k inmate :
  requests (db w) !! autoid = Some request →
  inmate_of (db w) request = Some (k, inmate) →
  inmate_unit (try_fetch_update inmate) = None →
  (request_address try_fetch_update autoid w).1
  = Respond 400 (Text "inmate is not assigned to a unit")
  ∧ (request_destination try_fetch_update autoid w).1
    = Respond 400 (Text "inmate %d is not assigned to a unit").
Proof.
  intros Hr Hi Hu.
  unfold request_address, request_destination, refreshed.
  rewrite Hr, Hi. unfold unit_of. rewrite Hu. done.
Qed.

End AddressProps.

Lemma request_without_inmate_witness :
  status_of (request_info 5 w_orphan) = Some 400
  ∧ request_address no_update 5 w_orphan = (Uncaught "AttributeError", w_orphan)
  ∧ request_destination no_update 5 w_orphan
    = (Uncaught "AttributeError", w_orphan).
Proof.
  apply (request_without_inmate no_update 5 w_orphan
           {| request_action := "Filled";
              request_date_postmarked := Date 2024 2 1;
              request_date_processed := Date 2024 2 5;
              request_inmate := None;
              request_shipment := None |}).
  - reflexivity.
  - reflexivity.
Defined.

Lemma request_address_uses_refreshed_unit_witness :
  json_field (request_address (move_to (Some 2)) 1 w_ship).1 "street1"
  = Some (JStr (unit_street1 unit_b))
  ∧ json_field (request_address (move_to (Some 2)) 1 w_ship).1 "zipcode"
    = Some (JStr (unit_zipcode unit_b))
  ∧ (request_destination (move_to (Some 2)) 1 w_ship).1
    = jsonify [("name", JStr (unit_name unit_b))].
Proof.
  apply (request_address_uses_refreshed_unit (move_to (Some 2)) 1 w_ship
           (request_of 1) 1 (inmate_in None) 2 unit_b).
  - reflexivity.
  - reflexivity.
  - reflexivity.
  - reflexivity.
Defined.

Example request_address_name :
  (request_address no_update 2 w_ship).1
  = jsonify [("name", JStr "Ada Roe #00001234");
             ("street1", JStr "3872 FM 350 South"); ("street2", JStr "");
             ("city", JStr "Livingston"); ("state", JStr "TX");
             ("zipcode", JStr "77351")].
Proof. vm_compute. reflexivity. Qed.

Example title_words :
  Title.title "mcDONALD o'neil-smith 3rd" = "Mcdonald O'Neil-Smith 3Rd".
Proof. vm_compute. reflexivity. Qed.

(** ** [unit_autoids] and [unit_address] *)

Lemma autoids_fold_Some (l : list (nat * Unit)) (d : gmap string nat) name k :
  foldl (λ d ku, <[unit_name ku.2 := ku.1]> d) d l !! name = Some k →
  d !! name = Some k ∨ ∃ u, (k, u) ∈ l ∧ unit_name u = name.
Proof.
  revert d. induction l as [|[k0 u0] l IH]; intros d; simpl; [by left|].
  intros [H|(u & Hin & Hu)]%IH.
  - destruct (decide (unit_name u0 = name)) as [Heq|Hne].
    + rewrite Heq, lookup_insert_eq in H. injection H as ->.
      right. exists u0. split; [left|done].
    + rewrite lookup_insert_ne in H by done. by left.
  - right. exists u. split; [by right|done].
Qed.

Lemma autoids_fold_is_Some (l : list (nat * Unit)) (d : gmap string nat) k u :
  (k, u) ∈ l →
  is_Some (foldl (λ d ku, <[unit_name ku.2 := ku.1]> d) d l !! unit_name u).
Proof.
  assert (∀ l (d : gmap string nat) name, is_Some (d !! name) →
            is_Some (foldl (λ d ku, <[unit_name ku.2 := ku.1]> d) d l !! name))
    as Hkeep.
  { clear. intros l. induction l as [|[k0 u0] l IH]; intros d name H; simpl; [done|].
    apply IH. destruct (decide (unit_name u0 = name)) as [->|Hne].
    - by rewrite lookup_insert_eq.
    - by rewrite lookup_insert_ne. }
  revert d. induction l as [|[k0 u0] l IH]; intros d Hin; simpl.
  - by apply elem_of_nil in Hin.
  - apply elem_of_cons in Hin as [[= <- <-]|Hin]; [|by apply IH].
    apply Hkeep. by rewrite lookup_insert_eq.
Qed.

Lemma unit_autoids_dict_Some s name k :
  unit_autoids_dict s !! name = Some k →
  ∃ u, units s !! k = Some u ∧ unit_name u = name.
Proof.
  intros [H|(u & Hin & Hu)]%autoids_fold_Some; [done|].
  exists u. split; [by apply elem_of_map_to_list|done].
Qed.

Lemma unit_autoids_dict_is_Some s k u :
  units s !! k = Some u → is_Some (unit_autoids_dict s !! unit_name u).
Proof. intros H. eapply autoids_fold_is_Some. by apply elem_of_map_to_list. Qed.

Lemma json_field_of_map (m : gmap string nat) key v :
  m !! key = Some v →
  snd <$> find (λ kv : string * Json, bool_decide (kv.1 = key))
            ((λ kv : string * nat, (kv.1, JInt (Z.of_nat kv.2))) <$> map_to_list m)
  = Some (JInt (Z.of_nat v)).
Proof.
  intros H. apply elem_of_map_to_list in H.
  pose proof (NoDup_fst_map_to_list m) as Hnd.
  induction (map_to_list m) as [|[k0 v0] l IH]; [by apply elem_of_nil in H|].
  rewrite fmap_cons in Hnd. apply NoDup_cons in Hnd as [Hk0 Hnd].
  simpl. case_bool_decide as Hk; simpl in Hk.
  - subst k0. apply elem_of_cons in H as [[= ->]|Hin]; [done|].
    exfalso. apply Hk0. apply list_elem_of_fmap. by exists (key, v).
  - apply elem_of_cons in H as [[= ? ?]|Hin]; [done|]. by apply IH.
Qed.

(** X14. Every name in the [unit_autoids] mapping stands for a stored unit
    of that name, and the name of every stored unit is in the mapping. *)
Theorem unit_autoids_sound w :
  (∀ name k, unit_autoids_dict (db w) !! name = Some k →
     ∃ u, units (db w) !! k = Some u ∧ unit_name u = name)
  ∧ (∀ k u, units (db w) !! k = Some u →
       is_Some (unit_autoids_dict (db w) !! unit_name u)).
Proof.
  split.
  - intros name k. apply unit_autoids_dict_Some.
  - intros k u. apply unit_autoids_dict_is_Some.
Qed.

(** X15. When no two units share a name, [unit_autoids] gives for each
    unit's name that unit's identifier, and [unit_address] at that
    identifier gives that unit's address. *)
Theorem unit_autoids_unique_names config_name w k u :
  unit_names_unique (db w) →
  units (db w) !! k = Some u →
  json_field (unit_autoids w) (unit_name u) = Some (JInt (Z.of_nat k))
  ∧ json_field (unit_address config_name k w) "street1"
    = Some (JStr (unit_street1 u)).
Proof.
  intros Huniq Hk. split.
  - unfold unit_autoids, json_field, jsonify. apply json_field_of_map.
    destruct (unit_autoids_dict_is_Some _ k u Hk) as [k' Hk'].
    destruct (unit_autoids_dict_Some _ _ _ Hk') as (u' & Hu' & Hname).
    by rewrite (Huniq k k' u u' Hk Hu').
  - unfold unit_address. by rewrite Hk.
Qed.

Lemma w_ship_unit_names_unique : unit_names_unique (db w_ship).
Proof.
  intros k1 k2 u1 u2 H1 H2 Hn. simpl in H1, H2.
  apply lookup_insert_Some in H1 as [[<- <-]|[_ H1]];
    apply lookup_insert_Some in H2 as [[<- <-]|[_ H2]]; try done.
  - apply lookup_singleton_Some in H2 as [<- <-]. done.
  - apply lookup_singleton_Some in H1 as [<- <-]. done.
  - apply lookup_singleton_Some in H1 as [<- <-].
    apply lookup_singleton_Some in H2 as [<- <-]. done.
Qed.

Lemma unit_autoids_unique_names_witness :
  json_field (unit_autoids w_ship) (unit_name unit_b) = Some (JInt (Z.of_nat 2))
  ∧ json_field (unit_address "Inside Books Project" 2 w_ship) "street1"
    = Some (JStr (unit_street1 unit_b)).
Proof.
  apply (unit_autoids_unique_names "Inside Books Project" w_ship 2 unit_b).
  - exact w_ship_unit_names_unique.
  - reflexivity.
Defined.

(** ** [ship_requests], on every input *)

Section ShipExtras.

Variable validate : ShipmentForm → bool.
Variable try_fetch_update : Inmate → Inmate.
Variable iterate : gset nat → list nat.

(** X18. When every request the set yields exists and belongs to an
    inmate without unit (also when the set is empty), a validated
    submission ends in an uncaught [StopIteration], whatever order the set
    is iterated in, and the world is as it was. *)
Theorem ship_requests_none_assigned today form w :
  validate form = true →
  Forall (unassigned_request (db w))
         (iterate (list_to_set (form_request_ids form))) →
  ship_requests validate try_fetch_update iterate today form w
  = (Uncaught "StopIteration", w).
Proof.
  intros Hv Hall. unfold ship_requests. rewrite Hv. simpl.
  by rewrite (first_unit_none_assigned _ _ Hall).
Qed.

Lemma check_units_keeps_units unit s pending :
  match check_units try_fetch_update unit s pending with
  | Completed s' _ | Left _ s' => units s' = units s
  end.
Proof.
  revert s. induction pending as [|autoid rest IH]; intros s; simpl; [done|].
  destruct (requests s !! autoid) as [r|]; [|done].
  destruct (inmate_of s r) as [[k0 inmate]|]; [|done].
  match goal with
  | |- context [unit_of ?s1 ?i1] => destruct (unit_of s1 i1) as [[? u]|]
  end; [|done].
  case_decide; [|done].
  match goal with
  | |- context [check_units _ _ ?s1 rest] => specialize (IH s1)
  end.
  destruct (check_units _ _ _ rest); simpl in *; done.
Qed.

(** X19. No run of [ship_requests] changes a unit, the session or the
    flashed messages. *)
Theorem ship_requests_frame today form w :
  let w' := (ship_requests validate try_fetch_update iterate today form w).2 in
  units (db w') = units (db w)
  ∧ flask_session w' = flask_session w
  ∧ flashed w' = flashed w.
Proof.
  unfold ship_requests. destruct (validate form); simpl; [|done].
  destruct (first_unit _ _) as [o|[[k unit] pending1]]; [done|].
  pose proof (check_units_keeps_units unit (db w) pending1) as H.
  destruct (check_units _ _ _ _) as [s pending2|o s]; simpl; [|done].
  done.
Qed.

(** X20. The loop tells units apart by their names alone: run against two
    units of one name it does the same. *)
Theorem check_units_by_name unit unit' s pending :
  unit_name unit = unit_name unit' →
  check_units try_fetch_update unit s pending
  = check_units try_fetch_update unit' s pending.
Proof.
  intros Hn. revert s. induction pending as [|autoid rest IH]; intros s; simpl;
    [done|].
  destruct (requests s !! autoid) as [r|]; [|done].
  destruct (inmate_of s r) as [[k inmate]|]; [|done].
  destruct (unit_of _ _) as [[? u]|]; [|done].
  rewrite <- Hn. case_decide; [apply IH|].
  unfold mixed_units. by rewrite Hn.
Qed.

End ShipExtras.

Lemma ship_requests_none_assigned_witness :
  ship_requests always_valid no_update ascending (Date 2024 3 1)
    (ship_form [3; 1; 3]) w_ship
  = (Uncaught "StopIteration", w_ship).
Proof.
  apply (ship_requests_none_assigned always_valid no_update ascending
           (Date 2024 3 1) (ship_form [3; 1; 3]) w_ship eq_refl).
  assert (ascending (list_to_set (form_request_ids (ship_form [3; 1; 3]))) = [1; 3])
    as -> by (vm_compute; reflexivity).
  repeat constructor.
  - exists (request_of 1), 1, (inmate_in None). by vm_compute.
  - exists (request_of 1), 1, (inmate_in None). by vm_compute.
Defined.

Lemma check_units_by_name_witness :
  check_units no_update unit_a (db w_ship) [2; 4]
  = check_units no_update unit_a_annex (db w_ship) [2; 4].
Proof.
  apply (check_units_by_name no_update unit_a unit_a_annex (db w_ship) [2; 4]).
  reflexivity.
Defined.

(** ** The metrics queries, on every store *)

Lemma after_cutoff_iff_witness :
  after_cutoff (Date 2006 12 31) = true ↔ 2007 ≤ year (Date 2006 12 31).
Proof. apply (after_cutoff_iff (Date 2006 12 31)). simpl. lia. Defined.

Lemma request_counts_rows_month s yearmonth n :
  (yearmonth, n) ∈ request_counts_rows s →
  n = Z.of_nat (length (filled_in_month s yearmonth)) ∧ (1 ≤ n)%Z.
Proof.
  unfold request_counts_rows. rewrite list_elem_of_fmap.
  intros ([k g] & [= -> ->] & Hg). simpl.
  apply elem_of_order_by, elem_of_group_by in Hg as [Hk ->].
  apply list_elem_of_fmap in Hk as (r0 & -> & Hr0).
  pose proof Hr0 as Hin0.
  apply list_elem_of_filter in Hr0 as [[Hfilled Hcut] Htab].
  assert (filter (λ r, Sql.strftime_Ym (request_date_postmarked r)
                       = Sql.strftime_Ym (request_date_postmarked r0))
            (filter (λ r, request_action r = "Filled"
                          ∧ Is_true (after_cutoff (request_date_postmarked r)))
                    (table (requests s)))
          = filled_in_month s (Sql.strftime_Ym (request_date_postmarked r0)))
    as Heq.
  { unfold filled_in_month. rewrite list_filter_filter.
    apply list_filter_iff. intros r. split.
    - by intros [? [? _]].
    - intros [? Hsame]. split; [done|]. split; [done|].
      by rewrite (same_month_same_cutoff _ _ Hsame). }
  rewrite Heq. split; [done|].
  assert (r0 ∈ filled_in_month s (Sql.strftime_Ym (request_date_postmarked r0)))
    as Hmem by (apply list_elem_of_filter; done).
  destruct (filled_in_month s _); [by apply elem_of_nil in Hmem|]. simpl. lia.
Qed.

Lemma group_by_keys {K A} `{EqDecision K} (key : A → K) rows :
  (Sql.group_by key rows).*1 = remove_dups (key <$> rows).
Proof.
  unfold Sql.group_by. generalize (remove_dups (key <$> rows)).
  intros ks. induction ks as [|k ks IH]; simpl; [done|]. by f_equal.
Qed.

Lemma order_by_Permutation {A} (col : A → string) rows :
  Sql.order_by col rows ≡ₚ rows.
Proof. apply merge_sort_Permutation. Qed.

(** The keys of an ordered, grouped query are distinct. *)
Lemma grouped_keys_NoDup {K A B} `{EqDecision K} (key : A → K) rows
    (col : K * list A → string) (f : K * list A → K * B) :
  (∀ g, (f g).1 = g.1) →
  NoDup (f <$> Sql.order_by col (Sql.group_by key rows)).*1.
Proof.
  intros Hf. rewrite <- list_fmap_compose.
  rewrite (list_fmap_ext _ fst) by (intros ? g _; apply Hf).
  rewrite order_by_Permutation, group_by_keys. apply NoDup_remove_dups.
Qed.

Lemma sum_Permutation l1 l2 : l1 ≡ₚ l2 → Sql.sum l1 = Sql.sum l2.
Proof. unfold Sql.sum. induction 1; simpl; lia. Qed.

Lemma filter_key_split {K A} `{EqDecision K} (key : A → K) k ks rows :
  k ∉ ks →
  length (filter (λ r, key r = k) rows) + length (filter (λ r, key r ∈ ks) rows)
  = length (filter (λ r, key r ∈ k :: ks) rows).
Proof.
  intros Hk. induction rows as [|r rows IH]; [done|].
  rewrite !filter_cons.
  destruct (decide (key r = k)) as [Heq|Hne].
  - rewrite decide_False by (by rewrite Heq).
    rewrite decide_True by (rewrite Heq; left). simpl. lia.
  - destruct (decide (key r ∈ ks)) as [Hin|Hnin].
    + rewrite decide_True by (by right). simpl. lia.
    + rewrite decide_False by (rewrite elem_of_cons; intros [?|?]; done). lia.
Qed.

Lemma group_sizes {K A} `{EqDecision K} (key : A → K) ks rows :
  NoDup ks →
  sum_list ((λ k, length (filter (λ r, key r = k) rows)) <$> ks)
  = length (filter (λ r, key r ∈ ks) rows).
Proof.
  induction 1 as [|k ks Hk Hnd IH]; simpl.
  - induction rows as [|r rows IHr]; [done|].
    rewrite filter_cons, decide_False; [done|]. apply not_elem_of_nil.
  - rewrite <- (filter_key_split key k ks rows) by done. f_equal. apply IH.
Qed.

Lemma filter_all {A} (P : A → Prop) `{∀ x, Decision (P x)} (l : list A) :
  Forall P l → filter P l = l.
Proof.
  induction 1 as [|x l Hx Hl IH]; [done|].
  rewrite filter_cons, decide_True by done. by f_equal.
Qed.

(** The groups of a [GROUP BY] share out the rows. *)
Lemma group_by_sizes {K A} `{EqDecision K} (key : A → K) rows :
  sum_list ((λ g, length g.2) <$> Sql.group_by key rows) = length rows.
Proof.
  unfold Sql.group_by. rewrite <- list_fmap_compose.
  rewrite (list_fmap_ext _ (λ k, length (filter (λ r, key r = k) rows)))
    by done.
  rewrite group_sizes by apply NoDup_remove_dups.
  f_equal. apply filter_all, Forall_forall. intros r Hr.
  apply elem_of_remove_dups, list_elem_of_fmap. by exists r.
Qed.

Lemma sum_of_nat (l : list nat) : Sql.sum (Z.of_nat <$> l) = Z.of_nat (sum_list l).
Proof.
  unfold Sql.sum. induction l as [|n l IH]; [done|].
  rewrite fmap_cons. cbn [foldr sum_list]. rewrite IH. unfold id. lia.
Qed.

(** The counts of a grouped query add up to the number of rows grouped. *)
Lemma grouped_counts_total {K A} `{EqDecision K} (key : A → K) rows
    (col : K * list A → string) :
  Sql.sum ((λ g, (g.1, Z.of_nat (length g.2)))
             <$> Sql.order_by col (Sql.group_by key rows)).*2
  = Z.of_nat (length rows).
Proof.
  rewrite <- list_fmap_compose.
  rewrite (sum_Permutation _ _
             (fmap_Permutation _ _ _ (order_by_Permutation col _))).
  rewrite (list_fmap_ext _ (Z.of_nat ∘ (λ g : K * list A, length g.2)))
    by done.
  by rewrite list_fmap_compose, sum_of_nat, group_by_sizes.
Qed.

(** X22. In the request_counts answer no month appears twice, every
    month's count is the number of all Filled requests postmarked in that
    month and is at least 1, and the counts add up to the number of Filled
    requests that pass the [WHERE] clause. *)
Theorem request_counts_buckets w :
  ∃ dates counts,
    request_counts w = jsonify [("dates", JStrs dates); ("counts", JInts counts)]
    ∧ NoDup dates
    ∧ Forall2 (λ yearmonth n,
                 n = Z.of_nat (length (filled_in_month (db w) yearmonth))
                 ∧ (1 ≤ n)%Z)
              dates counts
    ∧ Sql.sum counts = Z.of_nat (length (counted_requests (db w))).
Proof.
  eexists _, _. split; [reflexivity|]. split; [|split].
  - unfold request_counts_rows. by apply grouped_keys_NoDup.
  - apply Forall2_fmap, Forall_Forall2_diag, Forall_forall.
    intros [yearmonth n] Hin. by apply request_counts_rows_month.
  - unfold request_counts_rows. apply grouped_counts_total.
Qed.

Lemma mapM_keys {A B K} (f : A → option B) (ka : A → K) (kb : B → K) l k :
  (∀ a b, f a = Some b → kb b = ka a) →
  mapM f l = Some k → kb <$> k = ka <$> l.
Proof.
  intros Hf Hk%mapM_Some_1.
  induction Hk as [|a b l k Hab _ IH]; [done|].
  rewrite !fmap_cons. by rewrite IH, (Hf _ _ Hab).
Qed.

(** X24. Every answer of shipping_volume lists each month in which a
    stored shipment passes the [WHERE] clause, lists no other month, and
    lists no month twice. *)
Theorem shipping_volume_months_once w dates pounds :
  shipping_volume w
  = jsonify [("dates", JStrs dates); ("pounds", JInts pounds)] →
  NoDup dates
  ∧ ∀ yearmonth,
      yearmonth ∈ dates
      ↔ ∃ sh, sh ∈ table (shipments (db w))
              ∧ after_cutoff (shipment_date_shipped sh) = true
              ∧ Sql.strftime_Ym (shipment_date_shipped sh) = yearmonth.
Proof.
  unfold shipping_volume.
  destruct (shipping_volume_rows (db w)) as [rows|] eqn:Hrows; [|done].
  intros [= <- _]. unfold shipping_volume_rows in Hrows.
  apply (mapM_keys _ fst fst) in Hrows.
  2:{ intros [k g] [k' v]. simpl.
      destruct (Sql.sum_int64 _); simpl; [|done]. by intros [= <- _]. }
  rewrite Hrows. split.
  - rewrite <- (list_fmap_id (Sql.order_by _ _)). by apply grouped_keys_NoDup.
  - intros yearmonth. rewrite list_elem_of_fmap. split.
    + intros ([k g] & -> & Hg).
      apply elem_of_order_by, elem_of_group_by in Hg as [Hk _].
      apply list_elem_of_fmap in Hk as (sh & -> & Hsh).
      apply list_elem_of_filter in Hsh as [Hc Hin].
      exists sh. split; [done|]. split; [by apply Is_true_true|done].
    + intros (sh & Hin & Hc & <-).
      eexists (_, _). split; [reflexivity|].
      apply elem_of_order_by, elem_of_group_by. split; [|reflexivity].
      apply list_elem_of_fmap. exists sh. split; [done|].
      apply list_elem_of_filter. split; [by apply Is_true_true|done].
Qed.

Lemma shipping_volume_months_once_witness :
  NoDup ["2023-05"; "2023-06"]
  ∧ ∀ yearmonth,
      yearmonth ∈ ["2023-05"; "2023-06"]
      ↔ ∃ sh, sh ∈ table (shipments (db (w_metrics []
                         [shipment_on (Date 2023 6 2) 40;
                          shipment_on (Date 2023 5 9) 33;
                          shipment_on (Date 2023 5 20) 31;
                          shipment_on (Date 2006 7 1) 64])))
              ∧ after_cutoff (shipment_date_shipped sh) = true
              ∧ Sql.strftime_Ym (shipment_date_shipped sh) = yearmonth.
Proof.
  apply (shipping_volume_months_once _ _ [4; 2]%Z).
  vm_compute. reflexivity.
Defined.

Lemma Sorted_NoDup_strict {A} (R R' : relation A) l :
  (∀ a b, R a b → a ≠ b → R' a b) →
  Sorted R l → NoDup l → Sorted R' l.
Proof.
  intros HR. induction 1 as [|x l Hs IH Hhd]; intros Hnd; [constructor|].
  apply NoDup_cons in Hnd as [Hx Hnd]. constructor; [by apply IH|].
  destruct Hhd as [|y l' Hxy]; constructor. apply HR; [done|].
  intros ->. apply Hx. left.
Qed.

Lemma leb_ne_ltb a b :
  Is_true (String.leb a b) → a ≠ b → Is_true (String.ltb a b).
Proof.
  unfold String.leb, String.ltb. intros Hle Hne.
  destruct (String.compare a b) eqn:Hc; try done.
  by apply String.compare_eq_iff in Hc.
Qed.

(** X23. In the new_request_counts answer the months are in strictly
    ascending text order, and the counts add up to the number of distinct
    inmates that have a counted request: each is counted once. *)
Theorem new_request_counts_buckets w :
  ∃ dates counts,
    new_request_counts w
    = jsonify [("dates", JStrs dates); ("counts", JInts counts)]
    ∧ Sorted (λ a b, Is_true (String.ltb a b)) dates
    ∧ Sql.sum counts = Z.of_nat (counted_inmates (db w)).
Proof.
  eexists _, _. split; [reflexivity|]. split.
  - assert (NoDup (new_request_counts_rows (db w)).*1) as Hnd
      by (unfold new_request_counts_rows; by apply grouped_keys_NoDup).
    eapply Sorted_NoDup_strict; [apply leb_ne_ltb| |exact Hnd].
    unfold new_request_counts_rows. rewrite <- list_fmap_compose.
    eapply Sorted_fmap; [|apply (order_by_sorted (λ g : string * list string, g.1))].
    by intros [? ?] [? ?].
  - unfold new_request_counts_rows. rewrite grouped_counts_total.
    rewrite length_fmap. unfold counted_inmates, counted_requests.
    by rewrite <- (group_by_keys request_inmate), length_fmap.
Qed.

(** ** The schemas, on every input *)

Module SchemaExtras.
Import Schemas.

Lemma foldl_load_field_ext d1 d2 fs acc :
  (∀ name, name ∈ fs.*1 → d1 !! name = d2 !! name) →
  foldl (load_field d1) acc fs = foldl (load_field d2) acc fs.
Proof.
  revert acc. induction fs as [|[n f] fs IH]; intros acc H; simpl; [done|].
  assert (load_field d1 acc (n, f) = load_field d2 acc (n, f)) as ->.
  { unfold load_field. simpl. rewrite (H n); [done|]. left. }
  apply IH. intros name Hn. apply H. by right.
Qed.

(** X25. Under EXCLUDE a load sees only the keys of its load fields:
    undeclared keys, and the keys of [dump_only] fields, change neither the
    result nor the errors. *)
Theorem exclude_ignores_other_keys schema d1 d2 :
  same_on_load_fields schema d1 d2 →
  load schema EXCLUDE d1 = load schema EXCLUDE d2.
Proof.
  intros H. unfold load. simpl.
  by rewrite (foldl_load_field_ext d1 d2 _ _ H).
Qed.

Lemma foldl_insert_unknown (ks : list string) (errs : gmap string (list string)) k :
  k ∈ ks →
  foldl (λ errs k, <[k := ["Unknown field."]]> errs) errs ks !! k
  = Some ["Unknown field."].
Proof.
  assert (∀ ks (errs : gmap string (list string)),
            errs !! k = Some ["Unknown field."] →
            foldl (λ errs k, <[k := ["Unknown field."]]> errs) errs ks !! k
            = Some ["Unknown field."]) as Hkeep.
  { clear. intros ks. induction ks as [|k0 ks IH]; intros errs H; simpl; [done|].
    apply IH. destruct (decide (k0 = k)) as [->|Hne].
    - by rewrite lookup_insert_eq.
    - by rewrite lookup_insert_ne. }
  revert errs. induction ks as [|k0 ks IH]; intros errs Hin; simpl.
  - by apply elem_of_nil in Hin.
  - apply elem_of_cons in Hin as [->|Hin]; [|by apply IH].
    apply Hkeep. by rewrite lookup_insert_eq.
Qed.

(** Under RAISE, the default of a schema instance, a key of the
    input that is not a load field (the key of a [dump_only] field among
    them) fails the load under its own name with "Unknown field.". *)
Theorem raise_rejects_other_keys schema data key v :
  data !! key = Some v →
  key ∉ (load_fields schema).*1 →
  fails_with (load schema RAISE data) key "Unknown field.".
Proof.
  intros Hk Hn. unfold fails_with, load.
  set (acc := load_unknown _ _ _ _).
  assert (acc.1 !! key = Some ["Unknown field."]) as Hacc.
  { subst acc. simpl. apply foldl_insert_unknown.
    unfold unknown_keys. apply list_elem_of_filter. split; [done|].
    apply elem_of_elements, elem_of_dom. by eexists. }
  case_decide as Hempty.
  - rewrite Hempty, lookup_empty in Hacc. done.
  - by eexists.
Qed.

Lemma load_field_Some data fs acc name messages :
  (foldl (load_field data) acc fs).1 !! name = Some messages →
  acc.1 !! name = Some messages
  ∨ ∃ f, (name, f) ∈ fs ∧ field_deserialize f (data !! name) = Failed messages.
Proof.
  revert acc. induction fs as [|[n f] fs IH]; intros acc; simpl; [by left|].
  intros [H|(g & Hin & Hg)]%IH.
  - unfold load_field in H. simpl in H.
    destruct (field_deserialize f (data !! n)) as [|m|v] eqn:Hf; simpl in H;
      try by left.
    destruct (decide (n = name)) as [->|Hne].
    + rewrite lookup_insert_eq in H. injection H as ->.
      right. exists f. split; [left|done].
    + rewrite lookup_insert_ne in H by done. by left.
  - right. exists g. split; [by right|done].
Qed.

(** Under EXCLUDE every message of a failed load comes from a load field
    that fails. *)
Lemma load_error_source schema data errors name messages :
  load schema EXCLUDE data = inl errors →
  errors !! name = Some messages →
  ∃ f, (name, f) ∈ load_fields schema
       ∧ field_deserialize f (data !! name) = Failed messages.
Proof.
  unfold load. cbn [load_unknown]. case_decide; [done|].
  intros [= <-] [H'|H']%load_field_Some; [|done].
  simpl in H'. by rewrite lookup_empty in H'.
Qed.

(** X27. Under EXCLUDE the errors of a failed load are the messages of
    the load fields that fail, each under its own name, all of them at
    once and nothing else. *)
Theorem load_reports_every_failure schema data errors :
  NoDup (load_fields schema).*1 →
  load schema EXCLUDE data = inl errors →
  ∀ name messages,
    errors !! name = Some messages
    ↔ ∃ f, (name, f) ∈ load_fields schema
           ∧ field_deserialize f (data !! name) = Failed messages.
Proof.
  intros Hnd Hload name messages. split.
  - by apply load_error_source.
  - revert Hload. unfold load. cbn [load_unknown]. case_decide; [done|].
    intros [= <-] (f & Hin & Hf). by eapply SchemaProps.load_field_failed.
Qed.

Lemma text_field_cases raw :
  (∃ s, raw = Some (VStr s) ∧ s ≠ ""
        ∧ field_deserialize (Str [validate.Length 1] true false) raw
          = Got_ (LStr s))
  ∨ (∃ m, field_deserialize (Str [validate.Length 1] true false) raw = Failed m
          ∧ ∀ s, raw = Some (VStr s) → s = "").
Proof.
  destruct raw as [[|s| |]|]; simpl;
    try (right; eexists; split; [reflexivity|intros ? [=]]).
  destruct s as [|c s]; simpl.
  - right. eexists. split; [reflexivity|]. by intros ? [= <-].
  - left. eexists. split; [reflexivity|]. split; [done|reflexivity].
Qed.

Section Instances.

Variable int_of_value : Value → option Z.
Variable from_iso_datetime : string → option timestamp.
Variable from_iso_date : string → option date.

(** X28. The comment instance accepts exactly the inputs whose author and
    body are strings that are not empty, and its result holds those two
    keys and no other. *)
Theorem comment_loads_iff data result :
  comment int_of_value from_iso_datetime data = inr result
  ↔ ∃ author body,
      data !! "author" = Some (VStr author) ∧ author ≠ ""
      ∧ data !! "body" = Some (VStr body) ∧ body ≠ ""
      ∧ result = <["body" := LStr body]> (<["author" := LStr author]> ∅).
Proof.
  unfold comment, load.
  rewrite SchemaProps.comment_load_fields. cbn [foldl load_unknown].
  unfold load_field. cbn [fst snd].
  destruct (text_field_cases (data !! "author"))
    as [(a & Ha & Hane & ->)|(ma & -> & Ha)];
    destruct (text_field_cases (data !! "body"))
      as [(b & Hb & Hbne & ->)|(mb & -> & Hb)]; cbn [fst snd].
  - rewrite decide_True by done. split.
    + intros [= <-]. by exists a, b.
    + intros (a' & b' & Ha' & _ & Hb' & _ & ->). congruence.
  - rewrite decide_False by apply insert_non_empty. split; [done|].
    intros (a' & b' & _ & _ & Hb' & Hbne & _). by apply Hb in Hb'.
  - rewrite decide_False by apply insert_non_empty. split; [done|].
    intros (a' & b' & Ha' & Hane & _). by apply Ha in Ha'.
  - rewrite decide_False by apply insert_non_empty. split; [done|].
    intros (a' & b' & Ha' & Hane & _). by apply Ha in Ha'.
Qed.

(** X29. The request instance accepts exactly the inputs whose postmark
    date is text, not empty, that the ISO parser reads and whose action is
    "Tossed" or "Filled"; its result holds the parsed date and the action
    and no other key. *)
Theorem request_loads_iff data result :
  request int_of_value from_iso_date data = inr result
  ↔ ∃ text d action,
      data !! "date_postmarked" = Some (VStr text) ∧ from_iso_date text = Some d
      ∧ text ≠ ""
      ∧ data !! "action" = Some (VStr action)
      ∧ (action = "Tossed" ∨ action = "Filled")
      ∧ result = <["action" := LStr action]> (<["date_postmarked" := LDate d]> ∅).
Proof.
  unfold request, load.
  rewrite SchemaProps.request_load_fields. cbn [foldl load_unknown].
  unfold load_field. cbn [fst snd].
  assert ((∃ text d, data !! "date_postmarked" = Some (VStr text)
                     ∧ from_iso_date text = Some d ∧ text ≠ ""
                     ∧ field_deserialize (Date from_iso_date [] true false)
                         (data !! "date_postmarked") = Got_ (LDate d))
          ∨ (∃ m, field_deserialize (Date from_iso_date [] true false)
                    (data !! "date_postmarked") = Failed m
                  ∧ ∀ text d, data !! "date_postmarked" = Some (VStr text) →
                              from_iso_date text = Some d → text = ""))
    as Hdate.
  { destruct (data !! "date_postmarked") as [[|s| |]|]; simpl;
      try (right; eexists; split; [reflexivity|intros ? ? [=]]).
    destruct s as [|c s]; simpl.
    - right. eexists. split; [reflexivity|]. by intros ? ? [= <-].
    - destruct (from_iso_date (String c s)) as [d|] eqn:Hp; simpl.
      + left. exists (String c s), d. done.
      + right. eexists. split; [reflexivity|]. intros ? ? [= <-]. congruence. }
  assert ((∃ action, data !! "action" = Some (VStr action)
                     ∧ (action = "Tossed" ∨ action = "Filled")
                     ∧ field_deserialize
                         (Str [validate.OneOf ["Tossed"; "Filled"]] true false)
                         (data !! "action") = Got_ (LStr action))
          ∨ (∃ m, field_deserialize
                    (Str [validate.OneOf ["Tossed"; "Filled"]] true false)
                    (data !! "action") = Failed m
                  ∧ ∀ action, data !! "action" = Some (VStr action) →
                              action ≠ "Tossed" ∧ action ≠ "Filled"))
    as Haction.
  { destruct (data !! "action") as [[|s| |]|]; simpl;
      try (right; eexists; split; [reflexivity|intros ? [=]]).
    destruct (decide (s = "Tossed")) as [->|H1]; [left; eexists; by eauto|].
    destruct (decide (s = "Filled")) as [->|H2]; [left; eexists; by eauto|].
    right. rewrite SchemaProps.one_of_rejects by done.
    eexists. split; [reflexivity|]. by intros ? [= <-]. }
  destruct Hdate as [(text & d & Ht & Hp & Htne & ->)|(md & -> & Hd)];
    destruct Haction as [(action & Hact & Hin & ->)|(ma & -> & Hact)];
    cbn [fst snd].
  - rewrite decide_True by done. split.
    + intros [= <-]. by exists text, d, action.
    + intros (t' & d' & a' & Ht' & Hp' & _ & Ha' & _ & ->). congruence.
  - rewrite decide_False by apply insert_non_empty. split; [done|].
    intros (t' & d' & a' & _ & _ & _ & Ha' & Hin & _).
    apply Hact in Ha' as [? ?]. by destruct Hin.
  - rewrite decide_False by apply insert_non_empty. split; [done|].
    intros (t' & d' & a' & Ht' & Hp' & Htne & _). exfalso. by eapply Htne, Hd.
  - rewrite decide_False by apply insert_non_empty. split; [done|].
    intros (t' & d' & a' & Ht' & Hp' & Htne & _). exfalso. by eapply Htne, Hd.
Qed.

(** X26. No field of the shipment schema is required: a failed load only
    has messages for keys the input carries, and the empty input loads to
    the empty result. *)
Theorem shipment_has_no_required_field data :
  (∀ errors name messages,
     shipment int_of_value from_iso_date data = inl errors →
     errors !! name = Some messages → is_Some (data !! name))
  ∧ shipment int_of_value from_iso_date ∅ = inr ∅.
Proof.
  split; [|reflexivity].
  intros errors name messages Hload Herr.
  destruct (load_error_source _ _ _ _ _ Hload Herr) as (f & Hin & Hf).
  destruct (data !! name); [done|].
  assert (f_required f = false) as Hreq.
  { unfold load_fields, ShipmentSchema in Hin.
    apply list_elem_of_filter in Hin as [_ Hin].
    rewrite !elem_of_cons, elem_of_nil in Hin.
    destruct Hin as [[= _ ->]|[[= _ ->]|[[= _ ->]|[[= _ ->]|[[= _ ->]|[]]]]]];
      done. }
  simpl in Hf. by rewrite Hreq in Hf.
Qed.

End Instances.

Lemma exclude_ignores_other_keys_witness :
  load (CommentSchema sample_int sample_datetime) EXCLUDE
    {[ "author" := VStr "Ann"; "body" := VStr "hello"; "index" := VInt 9;
       "colour" := VStr "red" ]}
  = load (CommentSchema sample_int sample_datetime) EXCLUDE
      {[ "author" := VStr "Ann"; "body" := VStr "hello" ]}.
Proof.
  apply (exclude_ignores_other_keys (CommentSchema sample_int sample_datetime)).
  intros name Hin.
  rewrite (SchemaProps.comment_load_fields sample_int sample_datetime) in Hin.
  simpl in Hin. rewrite !elem_of_cons, elem_of_nil in Hin.
  destruct Hin as [->|[->|[]]]; reflexivity.
Defined.

Lemma raise_rejects_other_keys_witness :
  fails_with
    (load (CommentSchema sample_int sample_datetime) RAISE
       {[ "author" := VStr "Ann"; "body" := VStr "hello"; "index" := VInt 9 ]})
    "index" "Unknown field.".
Proof.
  apply (raise_rejects_other_keys (CommentSchema sample_int sample_datetime)
           {[ "author" := VStr "Ann"; "body" := VStr "hello"; "index" := VInt 9 ]}
           "index" (VInt 9)).
  - reflexivity.
  - rewrite (SchemaProps.comment_load_fields sample_int sample_datetime).
    simpl. rewrite !elem_of_cons, elem_of_nil. intuition discriminate.
Defined.

Lemma load_reports_every_failure_witness :
  ∃ errors,
    load (RequestSchema sample_int Strptime.strptime) EXCLUDE
      {[ "action" := VStr "Lost" ]} = inl errors
    ∧ ∀ name messages,
        errors !! name = Some messages
        ↔ ∃ f, (name, f) ∈ load_fields (RequestSchema sample_int Strptime.strptime)
               ∧ field_deserialize f
                   (({[ "action" := VStr "Lost" ]} : gmap string Value) !! name)
                 = Failed messages.
Proof.
  eexists. split; [vm_compute; reflexivity|].
  apply (load_reports_every_failure (RequestSchema sample_int Strptime.strptime)
           {[ "action" := VStr "Lost" ]}).
  - rewrite (SchemaProps.request_load_fields sample_int Strptime.strptime). simpl.
    repeat (constructor; [rewrite ?elem_of_cons, elem_of_nil; intuition discriminate|]).
    constructor.
  - vm_compute. reflexivity.
Defined.

Example request_two_errors :
  load (RequestSchema sample_int Strptime.strptime) EXCLUDE
    {[ "action" := VStr "Lost" ]}
  = inl {[ "date_postmarked" := ["Missing data for required field."];
           "action" := ["Must be one of: Tossed, Filled."] ]}.
Proof. vm_compute. reflexivity. Qed.

End SchemaExtras.
